(** * Little Library: a shallow embedding of the browser client and its server

    The development follows the four source files of the application:
    the shared persistence client ([loadBooks], [saveBooks],
    [getBookIdFromUrl]), the list page ([loadBooksForIndex], [searchBooks],
    [updateDisplay], [updateBookshelf], the focus listener), the detail page
    ([updateStatus], [deleteBook], [displayBookDetails]) and the create form
    ([handleAddBook]), together with the two routes of the express server.

    Asynchronous handlers are written in a state-and-exception monad over a
    [World] that holds the server's file, the outcome of the coming HTTP
    exchanges, the clock and the trace of what the user can observe. *)

From Stdlib Require Import ZArith String Ascii DecimalString DecimalPos Lia.
From stdpp Require Import list strings.

Local Open Scope string_scope.
Local Open Scope Z_scope.

(** ** JavaScript built-ins used by the program *)

Module Js.

(** A string is a sequence of code units; the model covers the units
    0..255, where [String.prototype.trim] and [toLowerCase] act as below. *)

Definition code (c : ascii) : Z := Z.of_N (N_of_ascii c).

(** White space and line terminators removed by [trim] (and skipped by
    the string-to-number conversion): TAB, LF, VT, FF, CR, SP, NBSP. *)
Definition is_space (c : ascii) : bool :=
  let n := code c in
  ((9 <=? n) && (n <=? 13)) || (n =? 32) || (n =? 160).

Fixpoint trimStart (s : string) : string :=
  match s with
  | String c s' => if is_space c then trimStart s' else s
  | EmptyString => EmptyString
  end.

Fixpoint trimEnd (s : string) : string :=
  match s with
  | String c s' =>
      match trimEnd s' with
      | EmptyString => if is_space c then EmptyString else String c EmptyString
      | t => String c t
      end
  | EmptyString => EmptyString
  end.

Definition trim (s : string) : string := trimEnd (trimStart s).

(** [toLowerCase] on one unit: A-Z and the Latin-1 capitals (U+00C0 to
    U+00DE, the multiplication sign excepted) move up by 32. *)
Definition lower (c : ascii) : ascii :=
  let n := code c in
  if ((65 <=? n) && (n <=? 90)) || ((192 <=? n) && (n <=? 222) && negb (n =? 215))
  then ascii_of_N (Z.to_N (n + 32))
  else c.

Fixpoint toLowerCase (s : string) : string :=
  match s with
  | String c s' => String (lower c) (toLowerCase s')
  | EmptyString => EmptyString
  end.

(** [t.startsWith(p)] *)
Fixpoint startsWith (p t : string) : bool :=
  match p, t with
  | EmptyString, _ => true
  | String a p', String b t' => if Ascii.eqb a b then startsWith p' t' else false
  | String _ _, EmptyString => false
  end.

(** [t.includes(p)]: [p] occurs at some position of [t]. *)
Fixpoint includes (t p : string) : bool :=
  startsWith p t ||
  match t with
  | String _ t' => includes t' p
  | EmptyString => false
  end.

(** [s.substring(0, n)] *)
Fixpoint take (n : nat) (s : string) : string :=
  match n, s with
  | S n', String c s' => String c (take n' s')
  | _, _ => EmptyString
  end.

(** [s.split(',')]: always at least one piece. *)
Fixpoint split_comma (s : string) : list string :=
  match s with
  | EmptyString => [EmptyString]
  | String c s' =>
      if Ascii.eqb c ","%char then EmptyString :: split_comma s'
      else match split_comma s' with
           | piece :: rest => String c piece :: rest
           | [] => [String c EmptyString]
           end
  end.

(** Truthiness of a string: only the empty string is falsy. *)
Definition truthy_string (s : string) : bool := negb (String.eqb s "").

(** *** Numbers and strings

    The values an [id] takes: absent, a number, or a string.  Numbers are
    the integers a double represents exactly (creation timestamps). *)
Inductive Val :=
| Undefined
| Number (n : Z)
| Str (s : string).

(** [Number::toString] on an integer: the decimal numeral, with a minus
    sign when negative. *)
Definition number_to_string (n : Z) : string :=
  NilZero.string_of_int (Z.to_int n).

(** ['...' + v] *)
Definition to_string (v : Val) : string :=
  match v with
  | Undefined => "undefined"
  | Number n => number_to_string n
  | Str s => s
  end.

Definition truthy (v : Val) : bool :=
  match v with
  | Undefined => false
  | Number n => negb (n =? 0)
  | Str s => truthy_string s
  end.

(** The value of a string converted to a number (StringToNumber). A finite
    value is kept exactly as [mantissa * 10 ^ exp10]; the rounding of a
    numeral to the nearest double, which shows only past 2^53 or 17
    significant digits, is left out. *)
Inductive StrNum :=
| NaN
| Infinite
| Finite (mantissa exp10 : Z).

Definition digit_in (base : Z) (c : ascii) : option Z :=
  let n := code c in
  let v := if (48 <=? n) && (n <=? 57) then n - 48
           else if (97 <=? n) && (n <=? 102) then n - 87
           else if (65 <=? n) && (n <=? 70) then n - 55
           else base in
  if v <? base then Some v else None.

(** Reads the longest run of digits in [base]: the value accumulated, the
    number of digits read and what follows them. *)
Fixpoint read_digits (base : Z) (s : string) (acc : Z) (count : Z) : Z * Z * string :=
  match s with
  | String c s' =>
      match digit_in base c with
      | Some d => read_digits base s' (acc * base + d) (count + 1)
      | None => (acc, count, s)
      end
  | EmptyString => (acc, count, s)
  end.

(** NonDecimalIntegerLiteral after its prefix: digits only, at least one. *)
Definition radix_literal (base : Z) (s : string) : StrNum :=
  match read_digits base s 0 0 with
  | (v, count, EmptyString) => if 0 <? count then Finite v 0 else NaN
  | _ => NaN
  end.

(** ExponentPart, when present: [e] or [E], an optional sign, digits. *)
Definition exponent_part (s : string) : option Z :=
  match s with
  | EmptyString => Some 0
  | String c s' =>
      if Ascii.eqb c "e"%char || Ascii.eqb c "E"%char then
        let '(neg, s'') :=
          match s' with
          | String d r => if Ascii.eqb d "-"%char then (true, r)
                          else if Ascii.eqb d "+"%char then (false, r)
                          else (false, s')
          | EmptyString => (false, s')
          end in
        match read_digits 10 s'' 0 0 with
        | (v, count, EmptyString) =>
            if 0 <? count then Some (if neg then - v else v) else None
        | _ => None
        end
      else None
  end.

(** StrUnsignedDecimalLiteral other than [Infinity]. *)
Definition unsigned_decimal (s : string) : StrNum :=
  let '(int_part, int_count, after_int) := read_digits 10 s 0 0 in
  let '(mant, frac_count, after_frac) :=
    match after_int with
    | String c r =>
        if Ascii.eqb c "."%char then
          let '(m, k, r') := read_digits 10 r int_part 0 in (m, k, r')
        else (int_part, 0, after_int)
    | EmptyString => (int_part, 0, after_int)
    end in
  if 0 <? int_count + frac_count then
    match exponent_part after_frac with
    | Some e => Finite mant (e - frac_count)
    | None => NaN
    end
  else NaN.

Definition signed_decimal (s : string) : StrNum :=
  let '(neg, body) :=
    match s with
    | String c r => if Ascii.eqb c "-"%char then (true, r)
                    else if Ascii.eqb c "+"%char then (false, r)
                    else (false, s)
    | EmptyString => (false, s)
    end in
  if String.eqb body "Infinity" then Infinite
  else match unsigned_decimal body with
       | Finite m e => Finite (if neg then - m else m) e
       | other => other
       end.

Definition StringToNumber (s : string) : StrNum :=
  match trim s with
  | EmptyString => Finite 0 0
  | String c0 (String c1 r) as t =>
      if Ascii.eqb c0 "0"%char && (Ascii.eqb c1 "x"%char || Ascii.eqb c1 "X"%char)
      then radix_literal 16 r
      else if Ascii.eqb c0 "0"%char && (Ascii.eqb c1 "o"%char || Ascii.eqb c1 "O"%char)
      then radix_literal 8 r
      else if Ascii.eqb c0 "0"%char && (Ascii.eqb c1 "b"%char || Ascii.eqb c1 "B"%char)
      then radix_literal 2 r
      else signed_decimal t
  | t => signed_decimal t
  end.

(** [n == x] for an integer [n] and a converted string. *)
Definition number_equals (n : Z) (x : StrNum) : bool :=
  match x with
  | Finite m e => if 0 <=? e then n =? m * 10 ^ e else n * 10 ^ (- e) =? m
  | _ => false
  end.

(** [v == s], loose equality of a value with a string: a number is
    compared with the string converted to a number, a string unit by
    unit, and [undefined] equals no string. *)
Definition loose_eq (v : Val) (s : string) : bool :=
  match v with
  | Undefined => false
  | Number n => number_equals n (StringToNumber s)
  | Str t => String.eqb t s
  end.

End Js.

(** ** Data model *)

(** The ISO-8601 text of an instant, kept as the instant itself
    (milliseconds since the epoch): [new Date(ms).toISOString()]. *)
Inductive Stamp := ISO (ms : Z).

(** A book as it sits in the JSON document: any key may be absent. *)
Record Book := mkBook {
  id : Js.Val;
  title : option string;
  author : option string;
  description : option string;
  coverImage : option string;
  review : option string;
  tags : option (list string);
  status : option string;
  dateAdded : option Stamp
}.

(** The library document, the unit that is stored and transmitted. *)
Module Doc.
Record t := mk {
  library : option string;
  lastUpdated : option Stamp;
  totalBooks : option Z;
  books : option (list Book)
}.
End Doc.

(** ** The server: two routes over one file *)

Module Server.

(** [books.json]: [None] when the file is absent or does not parse. *)
Definition File := option Doc.t.

(** [app.get('/books')]: the parsed file, or [{ books: [] }] when reading
    or parsing throws. The status is always 200. *)
Definition get_books (disk_ok : bool) (f : File) : Doc.t :=
  match (if disk_ok then f else None) with
  | Some d => d
  | None => Doc.mk None None None (Some [])
  end.

(** [app.post('/books')]: writes the request body over the file and
    answers 200, or answers 500 and leaves the file when writing throws. *)
Definition post_books (disk_ok : bool) (body : Doc.t) (f : File) : bool * File :=
  if disk_ok then (true, Some body) else (false, f).

End Server.

(** ** The world a handler runs in *)

(** What happens to one HTTP exchange. *)
Inductive Fault :=
| Healthy
| Unreachable   (* the request fails in transport: [fetch] rejects *)
| Garbled       (* the reply arrives but its body is not JSON *)
| DiskError.    (* the server's file operation throws *)

Record Exchange := mkExchange { fault : Fault; latency : Z }.

Inductive Event :=
| Fetched (method : string) (body : option Doc.t)
| Alert (message : string)
| Confirm (message : string) (answer : bool)
| Navigate (url : string)
| Focus (element : string)
| PreventDefault
| FormReset.

Record World := mkWorld {
  file : Server.File;       (* the server's books.json *)
  net : list Exchange;      (* the coming exchanges; none listed: healthy, instant *)
  clock : Z;                (* Date.now() *)
  url_id : option string;   (* new URLSearchParams(location.search).get('id') *)
  trace : list Event        (* what was sent and shown, oldest first *)
}.

Inductive Error := TypeError | SyntaxError.

Inductive Outcome (A : Type) :=
| Return (a : A)
| Throw (e : Error).
Arguments Return {A} a.
Arguments Throw {A} e.

(** An asynchronous function: it runs to completion on the world, awaiting
    each call in turn, and returns or throws. *)
Definition M (A : Type) : Type := World -> Outcome A * World.

Definition ret {A} (a : A) : M A := fun w => (Return a, w).

Definition throw {A} (e : Error) : M A := fun w => (Throw e, w).

Definition bind {A B} (m : M A) (k : A -> M B) : M B :=
  fun w => match m w with
           | (Return a, w') => k a w'
           | (Throw e, w') => (Throw e, w')
           end.

(** [try { body } catch (error) { handler }] *)
Definition try_catch {A} (body : M A) (handler : Error -> M A) : M A :=
  fun w => match body w with
           | (Throw e, w') => handler e w'
           | done => done
           end.

Notation "'let*' x ':=' m 'in' k" := (bind m (fun x => k))
  (at level 10, x pattern, m at level 100, k at level 200).
Notation "m ';;' k" := (bind m (fun _ => k))
  (at level 100, k at level 200, right associativity).

Definition emit (e : Event) : M unit :=
  fun w => (Return tt, mkWorld (file w) (net w) (clock w) (url_id w) (trace w ++ [e])).

Definition alert (message : string) : M unit := emit (Alert message).

Definition navigate (url : string) : M unit := emit (Navigate url).

(** [new Date()] / [Date.now()] *)
Definition now : M Z := fun w => (Return (clock w), w).

(** The next exchange is taken off the schedule and its time passes. *)
Definition next_exchange : M Fault :=
  fun w => match net w with
           | x :: rest =>
               (Return (fault x),
                mkWorld (file w) rest (clock w + Z.max 0 (latency x)) (url_id w) (trace w))
           | [] => (Return Healthy, w)
           end.

Definition read_file : M Server.File := fun w => (Return (file w), w).

Definition write_file (f : Server.File) : M unit :=
  fun w => (Return tt, mkWorld f (net w) (clock w) (url_id w) (trace w)).

(** A reply: its [ok] flag and its body when that is JSON. *)
Record Response := mkResponse { ok : bool; payload : option Doc.t }.

(** [fetch('/books')] *)
Definition fetch_get : M Response :=
  emit (Fetched "GET" None);;
  let* f := next_exchange in
  match f with
  | Unreachable => throw TypeError
  | Garbled => ret (mkResponse true None)
  | Healthy => let* stored := read_file in
               ret (mkResponse true (Some (Server.get_books true stored)))
  | DiskError => let* stored := read_file in
                 ret (mkResponse true (Some (Server.get_books false stored)))
  end.

(** [fetch('/books', { method: 'POST', ..., body: JSON.stringify(d) })] *)
Definition fetch_post (d : Doc.t) : M Response :=
  emit (Fetched "POST" (Some d));;
  let* f := next_exchange in
  match f with
  | Unreachable => throw TypeError
  | other =>
      let* stored := read_file in
      let '(accepted, stored') :=
        Server.post_books (match other with DiskError => false | _ => true end) d stored in
      write_file stored';;
      ret (mkResponse accepted None)
  end.

(** [response.json()] *)
Definition json (r : Response) : M Doc.t :=
  match payload r with
  | Some d => ret d
  | None => throw SyntaxError
  end.

(** ** library.js: the persistence client *)

(** The [try] block of [loadBooks()]. *)
Definition loadBooks_try : M (list Book) :=
  let* response := fetch_get in
  let* data := json response in
  ret (match Doc.books data with Some bs => bs | None => [] end).

(** [loadBooks()] *)
Definition loadBooks : M (list Book) :=
  try_catch loadBooks_try (fun _ => ret []).

(** The [try] block of [saveBooks(books)]. *)
Definition saveBooks_try (books : list Book) : M bool :=
  let* t := now in
  let dataToSave :=
    Doc.mk (Some "Little Library") (Some (ISO t))
           (Some (Z.of_nat (length books))) (Some books) in
  let* response := fetch_post dataToSave in
  ret (ok response).

(** [saveBooks(books)] *)
Definition saveBooks (books : list Book) : M bool :=
  try_catch (saveBooks_try books) (fun _ => ret false).

(** [getBookIdFromUrl()]: the [id] parameter, or [null]. *)
Definition getBookIdFromUrl : M (option string) :=
  fun w => (Return (url_id w), w).

(** ** index.js: the list page *)

Module Index.

(** A book object of the page. Two objects with equal content are still
    two objects: [ref] tells them apart, as [indexOf] does. *)
Record Obj := mkObj { ref : nat; val : Book }.

(** A table cell, with the properties the page sets on it ([""] and
    [None] when it sets none). *)
Record Cell := mkCell {
  colSpan : Z;
  innerHTML : string;
  width : string;
  height : string;
  align : string;
  tooltip : string;               (* cell.title *)
  onclick : option Z;             (* showBookDetail(originalIndex) *)
  textAlign : string;
  padding : string;
  verticalAlign : string;
  cursor : string;
  backgroundColor : string
}.

Record Page := mkPage {
  books : list Obj;               (* the global [books] *)
  heading : string;               (* textContent of the h3 *)
  emptyTitle : option string;     (* display of the h4, when the page has one *)
  emptyMessage : option string;   (* display of the paragraph, when the page has one *)
  table : list (list Cell)        (* rows of #bookshelf-table *)
}.

Definition set_books (bs : list Obj) (p : Page) : Page :=
  mkPage bs (heading p) (emptyTitle p) (emptyMessage p) (table p).

Definition set_table (rows : list (list Cell)) (p : Page) : Page :=
  mkPage (books p) (heading p) (emptyTitle p) (emptyMessage p) rows.

(** The validity test of [loadBooksForIndex]:
    [book && typeof book === 'object' && book.title && book.title.trim()]. *)
Definition isValid (book : Obj) : bool :=
  match title (val book) with
  | Some t => Js.truthy_string t && Js.truthy_string (Js.trim t)
  | None => false
  end.

(** The objects [JSON.parse] made, numbered in the order of the array. *)
Definition objects (allBooks : list Book) : list Obj := imap mkObj allBooks.

(** [loadBooksForIndex()] *)
Definition loadBooksForIndex (p : Page) : M Page :=
  try_catch
    (let* allBooks := loadBooks in
     ret (set_books (List.filter isValid (objects allBooks)) p))
    (fun _ => ret (set_books [] p)).

(** [books[bookIndex]] *)
Definition at_index (bs : list Obj) (bookIndex : Z) : option Obj :=
  if bookIndex <? 0 then None else bs !! Z.to_nat bookIndex.

(** [showBookDetail(bookIndex)] *)
Definition showBookDetail (bookIndex : Z) (p : Page) : M unit :=
  match at_index (books p) bookIndex with
  | Some book =>
      if Js.truthy (id (val book))
      then navigate ("detailpage.html?id=" +:+ Js.to_string (id (val book)))
      else ret tt
  | None => ret tt
  end.

(** [books.indexOf(book)]: the first position holding that very object,
    or -1. *)
Fixpoint indexOf_from (bs : list Obj) (book : Obj) (i : Z) : Z :=
  match bs with
  | b :: rest => if Nat.eqb (ref b) (ref book) then i else indexOf_from rest book (i + 1)
  | [] => -1
  end.

Definition indexOf (bs : list Obj) (book : Obj) : Z := indexOf_from bs book 0.

Definition booksPerRow : nat := 8.

(** The double quote, for the markup written into a cell. *)
Definition dq : string := String "034"%char EmptyString.

Definition BOOK_GLYPH : string := "üìö".
Definition ERROR_GLYPH : string := "‚ùì".

(** [title.length > n ? title.substring(0, n) + '...' : title] *)
Definition shorten (n : nat) (t : string) : string :=
  if (n <? String.length t)%nat then Js.take n t +:+ "..." else t.

(** The cell made for [booksToShow[bookIndex]]. *)
Definition book_cell (bs : list Obj) (entry : option Obj) : Cell :=
  match entry with
  | Some book =>
      match title (val book) with
      | Some raw =>
          if Js.truthy_string raw then
            let originalIndex := indexOf bs book in
            let title := Js.trim raw in
            let author :=
              match author (val book) with
              | Some a => if Js.truthy_string a then Js.trim a else "Unknown"
              | None => "Unknown"
              end in
            let with_cover :=
              match coverImage (val book) with
              | Some c => if Js.truthy_string c && Js.truthy_string (Js.trim c)
                          then Some c else None
              | None => None
              end in
            let html :=
              match with_cover with
              | Some c =>
                  "<img src=" +:+ dq +:+ c +:+ dq +:+ " " +:+
                  "width=" +:+ dq +:+ "50" +:+ dq +:+
                  " height=" +:+ dq +:+ "65" +:+ dq +:+ " " +:+
                  "style=" +:+ dq +:+ "object-fit: cover; border-radius: 3px;" +:+ dq +:+ " " +:+
                  "onerror=" +:+ dq +:+
                  "this.style.display='none'; this.nextElementSibling.style.display='block';" +:+
                  dq +:+ ">" +:+
                  "<div style=" +:+ dq +:+ "display: none;" +:+ dq +:+ ">" +:+
                  BOOK_GLYPH +:+ "</div>" +:+
                  "<br><small style=" +:+ dq +:+ "font-size: 9px;" +:+ dq +:+ ">" +:+
                  shorten 8 title +:+
                  "</small>"
              | None =>
                  BOOK_GLYPH +:+ "<br><small>" +:+ shorten 6 title +:+ "</small>"
              end in
            mkCell 1 html "60" "80" "center" (title +:+ " by " +:+ author)
                   (Some originalIndex) "" "5px" "top" "pointer" "#e8f4f8"
          else
            mkCell 1 ERROR_GLYPH "60" "80" "center" "" None "" "5px" "top" "default" "#ffcccc"
      | None =>
          mkCell 1 ERROR_GLYPH "60" "80" "center" "" None "" "5px" "top" "default" "#ffcccc"
      end
  | None =>
      mkCell 1 ERROR_GLYPH "60" "80" "center" "" None "" "5px" "top" "default" "#ffcccc"
  end.

(** The inner loop: [cells] cells from [bookIndex] on; the cells and the
    index reached. *)
Fixpoint fill_row (bs booksToShow : list Obj) (cells bookIndex : nat) : list Cell * nat :=
  match cells with
  | O => ([], bookIndex)
  | S k =>
      let cell := book_cell bs (booksToShow !! bookIndex) in
      let '(more, reached) := fill_row bs booksToShow k (S bookIndex) in
      (cell :: more, reached)
  end.

(** The outer loop: [rows] rows from [bookIndex] on. *)
Fixpoint fill_rows (bs booksToShow : list Obj) (rows bookIndex : nat) : list (list Cell) :=
  match rows with
  | O => []
  | S k =>
      let cellsInThisRow := Nat.min booksPerRow (length booksToShow - bookIndex) in
      let '(tableRow, reached) := fill_row bs booksToShow cellsInThisRow bookIndex in
      tableRow :: fill_rows bs booksToShow k reached
  end.

(** [Math.ceil(n / d)] on lengths. *)
Definition ceil_div (n d : nat) : nat :=
  (n / d + (if n mod d =? 0 then 0 else 1))%nat.

(** [updateBookshelf(booksToShow)] *)
Definition updateBookshelf (booksToShow : list Obj) (p : Page) : Page :=
  if (length booksToShow =? 0)%nat then
    set_table
      [[mkCell (Z.of_nat booksPerRow) "<p>No books to display</p>"
               "" "" "" "" None "center" "20px" "" "" ""]] p
  else
    let totalRows := ceil_div (length booksToShow) booksPerRow in
    set_table (fill_rows (books p) booksToShow totalRows 0) p.

(** [updateDisplay()] *)
Definition updateDisplay (p : Page) : Page :=
  let count := length (books p) in
  let shown := if (count =? 0)%nat then "block" else "none" in
  updateBookshelf (books p)
    (mkPage (books p)
            ("Your Library (" +:+ Js.number_to_string (Z.of_nat count) +:+ " books)")
            (option_map (fun _ => shown) (emptyTitle p))
            (option_map (fun _ => shown) (emptyMessage p))
            (table p)).

(** The filter callback of [searchBooks]. Reading [toLowerCase] off an
    absent title throws. *)
Definition matches (query : string) (book : Obj) : Outcome bool :=
  let searchTerm := Js.toLowerCase query in
  match title (val book) with
  | None => Throw TypeError
  | Some t =>
      let titleMatch := Js.includes (Js.toLowerCase t) searchTerm in
      let authorMatch :=
        match author (val book) with
        | Some a => Js.truthy_string a && Js.includes (Js.toLowerCase a) searchTerm
        | None => false
        end in
      let tagMatch :=
        match tags (val book) with
        | Some ts => existsb (fun tag => Js.includes (Js.toLowerCase tag) searchTerm) ts
        | None => false
        end in
      Return (titleMatch || authorMatch || tagMatch)
  end.

(** [array.filter(callback)] with a callback that may throw. *)
Fixpoint filter_with {A} (keep : A -> Outcome bool) (l : list A) : Outcome (list A) :=
  match l with
  | [] => Return []
  | x :: rest =>
      match keep x with
      | Throw e => Throw e
      | Return b =>
          match filter_with keep rest with
          | Throw e => Throw e
          | Return kept => Return (if b then x :: kept else kept)
          end
      end
  end.

(** [searchBooks(query)] *)
Definition searchBooks (query : string) (p : Page) : Outcome Page :=
  if negb (Js.truthy_string (Js.trim query)) then Return (updateDisplay p)
  else
    match filter_with (matches query) (books p) with
    | Return filteredBooks => Return (updateBookshelf filteredBooks p)
    | Throw e => Throw e
    end.

(** The [DOMContentLoaded] listener (the search box is wired to
    [searchBooks]). *)
Definition onDOMContentLoaded (p : Page) : M Page :=
  let* p1 := loadBooksForIndex p in
  ret (updateDisplay p1).

(** The [focus] listener of the window. *)
Definition onFocus (p : Page) : M Page :=
  let oldBooksLength := length (books p) in
  let* p1 := loadBooksForIndex p in
  if negb (length (books p1) =? oldBooksLength)%nat
  then ret (updateDisplay p1)
  else ret p1.

End Index.

(** ** The detail page *)

Module Detail.

(** The page as a store of element properties, keyed by
    [element.property]; the latest value written for a key is the one read. *)
Definition Dom := list (string * string).

Definition set (key value : string) (d : Dom) : Dom := (key, value) :: d.

Definition get (key : string) (d : Dom) : option string :=
snd <$> List.find (fun kv => String.eqb (fst kv) key) d.

(** [array.findIndex(callback)]: the first position that passes, or -1. *)
Fixpoint findIndex_from {A} (test : A -> bool) (l : list A) (i : Z) : Z :=
match l with
| x :: rest => if test x then i else findIndex_from test rest (i + 1)
| [] => -1
end.

Definition findIndex {A} (test : A -> bool) (l : list A) : Z := findIndex_from test l 0.

(** [books[bookIndex].status = newStatus] *)
Definition set_status (newStatus : string) (b : Book) : Book :=
mkBook (id b) (title b) (author b) (description b) (coverImage b) (review b)
       (tags b) (Some newStatus) (dateAdded b).

(** A field spliced into a message: an absent one reads [undefined]. *)
Definition shown (field : option string) : string :=
match field with
| Some s => s
| None => "undefined"
end.

(** [!bookId] on what [getBookIdFromUrl] returned. *)
Definition present (bookId : option string) : option string :=
match bookId with
| Some s => if Js.truthy_string s then Some s else None
| None => None
end.

(** [updateStatus()], with the value the status dropdown holds. *)
Definition updateStatus (statusSelect : string) : M unit :=
let* bookId := getBookIdFromUrl in
let newStatus := statusSelect in
match present bookId with
| None => alert "No book selected"
| Some bookId =>
    try_catch
      (let* books := loadBooks in
       let bookIndex := findIndex (fun b => Js.loose_eq (id b) bookId) books in
       if bookIndex =? -1 then alert "Book not found"
       else
         let books := alter (set_status newStatus) (Z.to_nat bookIndex) books in
         let* success := saveBooks books in
         if success then alert ("Status updated to: " +:+ newStatus)
         else alert "Error updating status. Please try again.")
      (fun _ => alert "Error updating status. Please try again.")
end.

(** [confirm(message)], answered by the user. *)
Definition confirm (message : string) (answer : bool) : M bool :=
emit (Confirm message answer);; ret answer.

(** [deleteBook()], with the answer the user gives if asked to confirm. *)
Definition deleteBook (answer : bool) : M unit :=
let* bookId := getBookIdFromUrl in
match present bookId with
| None => alert "No book selected"
| Some bookId =>
    try_catch
      (let* books := loadBooks in
       match List.find (fun b => Js.loose_eq (id b) bookId) books with
       | None => alert "Book not found"
       | Some book =>
           let* confirmDelete :=
             confirm ("Are you sure you want to delete " +:+ Index.dq +:+ shown (title book) +:+
                      Index.dq +:+ "? This action cannot be undone.") answer in
           if confirmDelete then
             let updatedBooks :=
               List.filter (fun b => negb (Js.loose_eq (id b) bookId)) books in
             let* success := saveBooks updatedBooks in
             if success then
               alert (Index.dq +:+ shown (title book) +:+ Index.dq +:+
                      " has been deleted from your library.");;
               navigate "index.html"
             else alert "Error deleting book. Please try again."
           else ret tt
       end)
      (fun _ => alert "Error deleting book. Please try again.")
end.

(** A string field that is present and not empty. *)
Definition filled (field : option string) : option string :=
match field with
| Some s => if Js.truthy_string s then Some s else None
| None => None
end.

(** [setupCoverImage(book)]; the image then reports through
    [coverImg_onload] or [coverImg_onerror]. *)
Definition setupCoverImage (book : Book) (d : Dom) : Dom :=
match filled (coverImage book) with
| Some c =>
    if Js.truthy_string (Js.trim c) then set "bookCover.src" c d
    else set "noCover.style.display" "block" (set "bookCover.style.display" "none" d)
| None => set "noCover.style.display" "block" (set "bookCover.style.display" "none" d)
end.

Definition coverImg_onload (d : Dom) : Dom :=
set "noCover.style.display" "none" (set "bookCover.style.display" "block" d).

Definition coverImg_onerror (d : Dom) : Dom :=
set "noCover.style.display" "block" (set "bookCover.style.display" "none" d).

Definition show_rows (name : string) (d : Dom) : Dom :=
set (name +:+ "ContentRow.style.display") "table-row"
    (set (name +:+ "Row.style.display") "table-row" d).

Fixpoint join (sep : string) (l : list string) : string :=
match l with
| [] => ""
| [x] => x
| x :: rest => x +:+ sep +:+ join sep rest
end.

(** [setupOptionalFields(book)] *)
Definition setupOptionalFields (book : Book) (d : Dom) : Dom :=
let d1 :=
  match filled (description book) with
  | Some t => if Js.truthy_string (Js.trim t)
              then show_rows "description" (set "bookDescription.textContent" t d) else d
  | None => d
  end in
let d2 :=
  match filled (review book) with
  | Some t => if Js.truthy_string (Js.trim t)
              then show_rows "review" (set "bookReview.textContent" t d1) else d1
  | None => d1
  end in
match tags book with
| Some (t :: ts) =>
    let tagsHtml :=
      join " " (List.map (fun tag =>
        "<span style=" +:+ Index.dq +:+
        "background: #f0f0f0; padding: 2px 6px; margin: 2px; border-radius: 3px;" +:+
        Index.dq +:+ ">[" +:+ tag +:+ "]</span>") (t :: ts)) in
    show_rows "tags" (set "bookTags.innerHTML" tagsHtml d2)
| _ => d2
end.

(** [setupStatusDropdown(book)] *)
Definition setupStatusDropdown (book : Book) (d : Dom) : Dom :=
match filled (status book) with
| Some s => set "statusSelect.value" s d
| None => set "statusSelect.value" "want to read" d
end.

(** [displayBookDetails()]; [toLocaleDateString] renders a date in the
    user's locale. *)
Definition displayBookDetails (toLocaleDateString : Stamp -> string) (d : Dom) : M Dom :=
let* bookId := getBookIdFromUrl in
match present bookId with
| None => alert "No book selected";; navigate "index.html";; ret d
| Some bookId =>
    try_catch
      (let* books := loadBooks in
       match List.find (fun b => Js.loose_eq (id b) bookId) books with
       | None => alert "Book not found";; navigate "index.html";; ret d
       | Some book =>
           let d := set "document.title" (shown (title book) +:+ " - Little Library") d in
           let d := set "bookTitle.textContent"
                        (match filled (title book) with Some t => t | None => "Untitled" end) d in
           let d := set "bookAuthor.textContent"
                        ("by " +:+ match filled (author book) with
                                   | Some a => a
                                   | None => "Unknown Author"
                                   end) d in
           let d := setupCoverImage book d in
           let d := setupOptionalFields book d in
           let d := setupStatusDropdown book d in
           ret (match dateAdded book with
                | Some stamp => set "dateAdded.textContent" (toLocaleDateString stamp) d
                | None => d
                end)
       end)
      (fun _ => alert "Error loading book details";; navigate "index.html";; ret d)
end.

End Detail.

(** ** addBook.js: the create form *)

Module AddBook.

(** The values of the form's fields at submission. *)
Record Form := mkForm {
  title : string;
  author : string;
  description : string;
  coverImage : string;
  review : string;
  tags : string;
  status : string
}.

(** [handleAddBook(event)] *)
Definition handleAddBook (formData : Form) : M unit :=
emit PreventDefault;;
let* created := now in
let* added := now in
let book :=
  mkBook (Js.Number created)
         (Some (Js.trim (title formData)))
         (Some (Js.trim (author formData)))
         (Some (Js.trim (description formData)))
         (Some (Js.trim (coverImage formData)))
         (Some (Js.trim (review formData)))
         (Some (List.filter Js.truthy_string
                  (List.map Js.trim (Js.split_comma (tags formData)))))
         (Some (status formData))
         (Some (ISO added)) in
if negb (Js.truthy_string (Js.trim (title formData))) then
  alert "Please enter a book title";;
  emit (Focus "title")
else
  try_catch
    (let* existingBooks := loadBooks in
     let existingBooks := (existingBooks ++ [book])%list in
     let* success := saveBooks existingBooks in
     if success then
       alert (Index.dq +:+ Js.trim (title formData) +:+ Index.dq +:+
              " has been added to your library!");;
       emit FormReset;;
       navigate "index.html"
     else alert "Error saving book. Please try again.")
    (fun _ => alert "Error adding book. Please try again.").

End AddBook.

(** * Vocabulary of the properties *)

(** Some stretch of [s] is [q] up to the case of its letters. *)
Definition occurs_ignoring_case (q s : string) : Prop :=
  exists before part after,
    s = before +:+ part +:+ after /\ Js.toLowerCase part = Js.toLowerCase q.

(** The query is found, letter case aside, in the title, in the author or
    in one of the tags. *)
Definition matches_query (q : string) (b : Book) : Prop :=
  (exists t, title b = Some t /\ occurs_ignoring_case q t) \/
  (exists a, author b = Some a /\ occurs_ignoring_case q a) \/
  (exists ts tag, tags b = Some ts /\ In tag ts /\ occurs_ignoring_case q tag).

Definition valid_books (bs : list Index.Obj) : Prop :=
  Forall (fun b => Index.isValid b = true) bs.

(** The callback as a plain test, for books that have a title. *)
Definition keeps (query : string) (b : Index.Obj) : bool :=
  match Index.matches query b with
  | Return verdict => verdict
  | Throw _ => false
  end.

(** The cells of a run of books, one each, in order. *)
Definition cells_of (bs shown : list Index.Obj) : list Index.Cell :=
  List.map (fun b => Index.book_cell bs (Some b)) shown.

(** The grid row by row: row [j] holds the books from [8 * j] on, eight
    at most. *)
Fixpoint rows_from (bs shown : list Index.Obj) (rows i : nat) : list (list Index.Cell) :=
  match rows with
  | O => []
  | S k => cells_of bs (take 8 (drop i shown)) :: rows_from bs shown k (i + 8)%nat
  end.

(** What will happen to the next HTTP exchange. *)
Definition upcoming_fault (w : World) : Fault :=
  match net w with
  | x :: _ => fault x
  | [] => Healthy
  end.

(** [b'] is [b] with, at most, another status. *)
Definition same_except_status (b b' : Book) : Prop :=
  id b' = id b /\ title b' = title b /\ author b' = author b /\
  description b' = description b /\ coverImage b' = coverImage b /\
  review b' = review b /\ tags b' = tags b /\ dateAdded b' = dateAdded b.

(** The book carries the identifier of the page URL, as [==] sees it. *)
Definition has_id (bookId : string) (b : Book) : Prop :=
  Js.loose_eq (id b) bookId = true.

(** A decimal digit, and a string made of decimal digits. *)
Definition is_digit (c : ascii) : bool :=
  match Js.digit_in 10 c with
  | Some _ => true
  | None => false
  end.

Fixpoint digits_only (s : string) : bool :=
  match s with
  | String c s' => is_digit c && digits_only s'
  | EmptyString => true
  end.

(** The number a run of decimal digits denotes, read after [acc]. *)
Fixpoint numeral_value (s : string) (acc : Z) : Z :=
  match s with
  | String c s' => numeral_value s' (acc * 10 + (Js.code c - 48))
  | EmptyString => acc
  end.

(** A cell styled as the error indicator. *)
Definition is_error_cell (c : Index.Cell) : bool :=
  String.eqb (Index.backgroundColor c) "#ffcccc" &&
  String.eqb (Index.innerHTML c) Index.ERROR_GLYPH.

Definition shows_error_cell (p : Index.Page) : Prop :=
  exists row cell, In row (Index.table p) /\ In cell row /\ is_error_cell cell = true.

(** The specification's sentence on malformed entries, read on the list
    page: whenever the page has loaded a stored collection over a healthy
    exchange, each stored book without a title shows in the grid as an
    error cell. *)
Definition malformed_entries_are_surfaced : Prop :=
  forall (w w' : World) (p0 p : Index.Page) (stored : Doc.t) (entries : list Book) (b : Book),
    file w = Some stored -> Doc.books stored = Some entries ->
    upcoming_fault w = Healthy ->
    Index.onDOMContentLoaded p0 w = (Return p, w') ->
    In b entries -> title b = None ->
    shows_error_cell p.

(** * A sample library *)

Definition dune : Book :=
  mkBook (Js.Number 1) (Some "Dune") (Some "Herbert") None None None
         (Some ["scifi"]) (Some "reading") None.

Definition emma : Book :=
  mkBook (Js.Number 2) (Some "Emma") (Some "Austen") None None None
         (Some ["classic"; "romance"]) None None.

(** An entry that lost its title. *)
Definition untitled : Book :=
  mkBook (Js.Number 7) None (Some "Nobody") None None None None None None.

Definition stored_library (entries : list Book) : Doc.t :=
  Doc.mk (Some "Little Library") (Some (ISO 1718000000000))
         (Some (Z.of_nat (length entries))) (Some entries).

(** A healthy world that stores [entries], seen from a page whose URL
    carries [param] as its id. *)
Definition sample_world (entries : list Book) (param : option string) : World :=
  mkWorld (Some (stored_library entries)) [] 1718000000500 param [].

(** The same world once the collection has been fetched. *)
Definition fetched_world (entries : list Book) (param : option string) : World :=
  mkWorld (Some (stored_library entries)) [] 1718000000500 param [Fetched "GET" None].

(** The list page before its first load. *)
Definition blank_page : Index.Page := Index.mkPage [] "" (Some "") (Some "") [].

(** The list page holding the two sample books. *)
Definition sample_page : Index.Page :=
  Index.mkPage [Index.mkObj 0 dune; Index.mkObj 1 emma] "" (Some "") (Some "") [].

Definition blank_form : AddBook.Form :=
  AddBook.mkForm "   " "Herbert" "" "" "" "scifi, classic" "reading".

(** Nine valid books, to fill more than one row. *)
Definition nine_books : list Index.Obj :=
  imap (fun i t => Index.mkObj i (mkBook (Js.Number (Z.of_nat i + 1)) (Some t) None None
                                         None None None None None))
       ["A"; "B"; "C"; "D"; "E"; "F"; "G"; "H"; "I"].

(** Emma renamed by another tab: as many books as before. *)
Definition emma_renamed : Book :=
  mkBook (Js.Number 2) (Some "Persuasion") (Some "Austen") None None None
         (Some ["classic"; "romance"]) None None.

(** The list page as [DOMContentLoaded] leaves it over the sample library. *)
Definition rendered_page : Index.Page :=
  Index.updateDisplay sample_page.

(** * Vocabulary of the further properties *)

(** The world once more events have been observed. *)
Definition with_events (w : World) (events : list Event) : World :=
  mkWorld (file w) (net w) (clock w) (url_id w) (trace w ++ events).

(** No two objects of the page are the same object. *)
Definition distinct_refs (bs : list Index.Obj) : Prop :=
  NoDup (List.map Index.ref bs).

(** The unit [c] occurs in [s]. *)
Fixpoint has_char (c : ascii) (s : string) : bool :=
  match s with
  | String a s' => Ascii.eqb a c || has_char c s'
  | EmptyString => false
  end.

(** A tag as the create form stores it: not empty, nothing to trim, no comma. *)
Definition clean_tag (t : string) : Prop :=
  t <> "" /\ Js.trim t = t /\ has_char "," t = false.

(** A stored document with no name and a wrong count. *)
Definition miscounted : Doc.t := Doc.mk None None (Some 5) (Some [dune; emma]).

Definition miscounted_world (seen : list Event) : World :=
  mkWorld (Some miscounted) [] 9 None seen.

(** The book object [handleAddBook] builds from the form when the clock
    reads [t]. *)
Definition new_book (formData : AddBook.Form) (t : Z) : Book :=
  mkBook (Js.Number t)
         (Some (Js.trim (AddBook.title formData)))
         (Some (Js.trim (AddBook.author formData)))
         (Some (Js.trim (AddBook.description formData)))
         (Some (Js.trim (AddBook.coverImage formData)))
         (Some (Js.trim (AddBook.review formData)))
         (Some (List.filter Js.truthy_string
                  (List.map Js.trim (Js.split_comma (AddBook.tags formData)))))
         (Some (AddBook.status formData))
         (Some (ISO t)).

(** The row [updateBookshelf] makes when there is nothing to show. *)
Definition placeholder_row : list Index.Cell :=
  [Index.mkCell 8 "<p>No books to display</p>" "" "" "" "" None "center" "20px" "" "" ""].

(** An optional text field that holds more than white space. *)
Definition has_text (field : option string) : bool :=
  match field with
  | Some s => Js.truthy_string (Js.trim s)
  | None => false
  end.

(** The text of a field that is present. *)
Definition text_of (field : option string) : string :=
  match field with
  | Some s => s
  | None => ""
  end.

(** * Properties *)

(** ** Strings *)

Lemma startsWith_prefix (p t : string) :
  Js.startsWith p t = true <-> exists r, t = p +:+ r.
Proof.
  revert t. induction p as [|a p IH]; intros t; simpl.
  - split; [intros _; exists t; reflexivity | reflexivity].
  - destruct t as [|b t].
    + split; [discriminate | intros [r Hr]; discriminate].
    + destruct (Ascii.eqb_spec a b) as [->|Hne].
      * rewrite IH. split; intros [r Hr]; exists r; [now subst | now inversion Hr].
      * split; [discriminate | intros [r Hr]; inversion Hr; congruence].
Qed.

Lemma includes_occurs (t p : string) :
  Js.includes t p = true <-> exists before after, t = before +:+ p +:+ after.
Proof.
  induction t as [|c t IH].
  - simpl. rewrite orb_false_r, startsWith_prefix. split.
    + intros [r Hr]. exists "", r. exact Hr.
    + intros (before & after & H). destruct before; [|discriminate].
      exists after. exact H.
  - cbn [Js.includes]. rewrite orb_true_iff, startsWith_prefix, IH. split.
    + intros [[r Hr] | (before & after & H)].
      * exists "", r. exact Hr.
      * exists (String c before), after. simpl. now rewrite H.
    + intros (before & after & H). destruct before as [|c' before].
      * left. exists after. exact H.
      * right. inversion H. now exists before, after.
Qed.

Lemma toLowerCase_app (a b : string) :
  Js.toLowerCase (a +:+ b) = Js.toLowerCase a +:+ Js.toLowerCase b.
Proof. induction a as [|c a IH]; simpl; [reflexivity | now rewrite IH]. Qed.

Lemma toLowerCase_split (s a b : string) :
  Js.toLowerCase s = a +:+ b ->
  exists s1 s2, s = s1 +:+ s2 /\ Js.toLowerCase s1 = a /\ Js.toLowerCase s2 = b.
Proof.
  revert s. induction a as [|c a IH]; intros s H.
  - exists "", s. auto.
  - destruct s as [|d s]; [discriminate|]. simpl in H. inversion H as [[Hc Hrest]].
    destruct (IH s Hrest) as (s1 & s2 & -> & H1 & H2).
    exists (String d s1), s2. simpl. now rewrite H1, H2.
Qed.

(** What [field.toLowerCase().includes(query.toLowerCase())] decides. *)
Lemma includes_ignoring_case (q s : string) :
  Js.includes (Js.toLowerCase s) (Js.toLowerCase q) = true <-> occurs_ignoring_case q s.
Proof.
  rewrite includes_occurs. unfold occurs_ignoring_case. split.
  - intros (before & after & H).
    apply toLowerCase_split in H as (s1 & s23 & -> & H1 & H23).
    apply toLowerCase_split in H23 as (s2 & s3 & -> & H2 & H3).
    now exists s1, s2, s3.
  - intros (before & part & after & -> & H).
    exists (Js.toLowerCase before), (Js.toLowerCase after).
    now rewrite !toLowerCase_app, H.
Qed.

Lemma toLowerCase_empty (q : string) : Js.toLowerCase q = "" -> q = "".
Proof. destruct q; [reflexivity | discriminate]. Qed.

Lemma trim_empty : Js.trim "" = "".
Proof. reflexivity. Qed.

Lemma occurs_in_empty (q : string) : occurs_ignoring_case q "" -> q = "".
Proof.
  intros (before & part & after & H & Hq).
  destruct before; [|discriminate]. destruct part; [|discriminate].
  symmetry in Hq. now apply toLowerCase_empty.
Qed.

Lemma truthy_string_true (s : string) : Js.truthy_string s = true <-> s <> "".
Proof.
  unfold Js.truthy_string. destruct (String.eqb_spec s ""); simpl; split; congruence.
Qed.

Lemma truthy_string_false (s : string) : Js.truthy_string s = false <-> s = "".
Proof.
  unfold Js.truthy_string. destruct (String.eqb_spec s ""); simpl; split; congruence.
Qed.

(** ** Numbers and their decimal numerals *)

Lemma digit_facts (c : ascii) :
  is_digit c = true ->
  Js.digit_in 10 c = Some (Js.code c - 48) /\
  Js.is_space c = false /\
  Ascii.eqb c "-" = false /\ Ascii.eqb c "+" = false /\ Ascii.eqb c "I" = false /\
  Ascii.eqb c "x" = false /\ Ascii.eqb c "X" = false /\
  Ascii.eqb c "o" = false /\ Ascii.eqb c "O" = false /\
  Ascii.eqb c "b" = false /\ Ascii.eqb c "B" = false.
Proof.
  destruct c as [[] [] [] [] [] [] [] []]; intros H; try discriminate H;
    repeat split; reflexivity.
Qed.

Lemma read_digits_numeral (s : string) (acc count : Z) :
  digits_only s = true ->
  Js.read_digits 10 s acc count =
  (numeral_value s acc, count + Z.of_nat (String.length s), "").
Proof.
  revert acc count. induction s as [|c s IH]; intros acc count H; simpl.
  - do 2 f_equal. lia.
  - simpl in H. apply andb_true_iff in H as [Hc Hs].
    destruct (digit_facts c Hc) as [-> _]. rewrite IH by exact Hs.
    do 2 f_equal. lia.
Qed.

Lemma trimEnd_digits (s : string) : digits_only s = true -> Js.trimEnd s = s.
Proof.
  induction s as [|c s IH]; intros H; simpl; [reflexivity|].
  simpl in H. apply andb_true_iff in H as [Hc Hs].
  rewrite IH by exact Hs. destruct s; [|reflexivity].
  now destruct (digit_facts c Hc) as (_ & -> & _).
Qed.

Lemma unsigned_decimal_digits (c : ascii) (s : string) :
  digits_only (String c s) = true ->
  Js.unsigned_decimal (String c s) = Js.Finite (numeral_value (String c s) 0) 0.
Proof.
  intros H. unfold Js.unsigned_decimal. rewrite read_digits_numeral by exact H.
  cbn [Js.exponent_part]. replace (0 <? _) with true; [reflexivity|].
  symmetry. apply Z.ltb_lt. simpl String.length. lia.
Qed.

(** A run of digits, with or without a minus sign before it, converts to
    the integer it denotes. *)
Lemma StringToNumber_digits (c : ascii) (s : string) :
  digits_only (String c s) = true ->
  Js.StringToNumber (String c s) = Js.Finite (numeral_value (String c s) 0) 0 /\
  Js.StringToNumber (String "-" (String c s)) =
    Js.Finite (- numeral_value (String c s) 0) 0.
Proof.
  intros H. pose proof (unsigned_decimal_digits c s H) as Hu.
  pose proof (trimEnd_digits _ H) as Ht.
  pose proof H as H'. simpl in H'. apply andb_true_iff in H' as [Hc Hs].
  destruct (digit_facts c Hc) as (_ & Hsp & Hm & Hp & HI & Hx & HX & Ho & HO & Hb & HB).
  assert (Hsigned : Js.signed_decimal (String c s) =
                    Js.Finite (numeral_value (String c s) 0) 0).
  { unfold Js.signed_decimal. rewrite Hm, Hp.
    replace (String.eqb (String c s) "Infinity") with false
      by (simpl; now rewrite HI).
    now rewrite Hu. }
  assert (Hminus : Js.signed_decimal (String "-" (String c s)) =
                   Js.Finite (- numeral_value (String c s) 0) 0).
  { unfold Js.signed_decimal. cbn [Ascii.eqb Bool.eqb].
    replace (String.eqb (String c s) "Infinity") with false
      by (simpl; now rewrite HI).
    now rewrite Hu. }
  split.
  - unfold Js.StringToNumber, Js.trim. cbn [Js.trimStart]. rewrite Hsp, Ht.
    destruct s as [|c1 r]; [exact Hsigned|].
    simpl in Hs. apply andb_true_iff in Hs as [Hc1 _].
    destruct (digit_facts c1 Hc1) as (_ & _ & _ & _ & _ & -> & -> & -> & -> & -> & ->).
    rewrite !andb_false_r. exact Hsigned.
  - assert (Hte : Js.trimEnd (String "-" (String c s)) = String "-" (String c s)).
    { transitivity (match Js.trimEnd (String c s) with
                    | EmptyString => if Js.is_space "-" then EmptyString
                                     else String "-" EmptyString
                    | String a t => String "-" (String a t)
                    end); [reflexivity | now rewrite Ht]. }
    unfold Js.StringToNumber, Js.trim. cbn [Js.trimStart].
    change (Js.is_space "-") with false. cbv iota. rewrite Hte.
    cbn [Ascii.eqb Bool.eqb andb]. exact Hminus.
Qed.

Lemma string_of_uint_digits (u : Decimal.uint) :
  digits_only (NilEmpty.string_of_uint u) = true.
Proof. induction u; simpl; auto. Qed.

Lemma numeral_value_uint_acc (u : Decimal.uint) (acc : positive) :
  numeral_value (NilEmpty.string_of_uint u) (Z.pos acc) = Z.pos (Pos.of_uint_acc u acc).
Proof.
  revert acc. induction u; intros acc; simpl; [reflexivity| | | | | | | | | |];
    rewrite <- IHu; f_equal; unfold Js.code; simpl; lia.
Qed.

Lemma numeral_value_uint (u : Decimal.uint) :
  numeral_value (NilEmpty.string_of_uint u) 0 = Z.of_N (Pos.of_uint u).
Proof.
  induction u; simpl; [reflexivity | exact IHu | | | | | | | | |];
    unfold Js.code; simpl; apply numeral_value_uint_acc.
Qed.

Lemma numeral_of_positive (p : positive) :
  exists c s, NilEmpty.string_of_uint (Pos.to_uint p) = String c s /\
              digits_only (String c s) = true /\
              numeral_value (String c s) 0 = Z.pos p.
Proof.
  pose proof (string_of_uint_digits (Pos.to_uint p)) as Hd.
  pose proof (numeral_value_uint (Pos.to_uint p)) as Hv.
  rewrite DecimalPos.Unsigned.of_to in Hv.
  destruct (NilEmpty.string_of_uint (Pos.to_uint p)) as [|c s] eqn:Hs.
  - simpl in Hv. discriminate Hv.
  - now exists c, s.
Qed.

(** The decimal numeral of an integer converts back to that integer. *)
Lemma StringToNumber_number_to_string (n : Z) :
  Js.StringToNumber (Js.number_to_string n) = Js.Finite n 0.
Proof.
  unfold Js.number_to_string. destruct n as [|p|p]; [reflexivity| |].
  - destruct (numeral_of_positive p) as (c & s & Hs & Hd & Hv).
    cbn [Z.to_int NilZero.string_of_int]. unfold NilZero.string_of_uint.
    destruct (Pos.to_uint p) eqn:Hu;
      [now apply DecimalPos.Unsigned.to_uint_nonnil in Hu | ..];
      rewrite Hs; rewrite <- Hv; now apply StringToNumber_digits.
  - destruct (numeral_of_positive p) as (c & s & Hs & Hd & Hv).
    cbn [Z.to_int NilZero.string_of_int]. unfold NilZero.string_of_uint.
    destruct (Pos.to_uint p) eqn:Hu;
      [now apply DecimalPos.Unsigned.to_uint_nonnil in Hu | ..];
      rewrite Hs; change (Z.neg p) with (- Z.pos p); rewrite <- Hv;
      now apply StringToNumber_digits.
Qed.

(** A number loosely equals the decimal numeral of [n] exactly when it is [n]. *)
Lemma loose_eq_number_to_string (m n : Z) :
  Js.loose_eq (Js.Number m) (Js.number_to_string n) = true <-> m = n.
Proof.
  unfold Js.loose_eq. rewrite StringToNumber_number_to_string.
  unfold Js.number_equals. cbn. rewrite Z.eqb_eq. lia.
Qed.

Lemma number_to_string_nonempty (n : Z) : Js.number_to_string n <> "".
Proof.
  unfold Js.number_to_string. destruct n as [|p|p]; [discriminate| |discriminate].
  destruct (numeral_of_positive p) as (c & s & Hs & _).
  cbn [Z.to_int NilZero.string_of_int]. unfold NilZero.string_of_uint.
  destruct (Pos.to_uint p); rewrite ?Hs; discriminate.
Qed.

(** ** The list page: search *)

Lemma matches_valid (query : string) (b : Index.Obj) :
  Index.isValid b = true -> Index.matches query b = Return (keeps query b).
Proof.
  unfold keeps, Index.isValid, Index.matches.
  destruct (title (Index.val b)); [reflexivity | discriminate].
Qed.

Lemma filter_with_valid (query : string) (bs : list Index.Obj) :
  valid_books bs ->
  Index.filter_with (Index.matches query) bs = Return (List.filter (keeps query) bs).
Proof.
  induction 1 as [|b bs Hb _ IH]; simpl; [reflexivity|].
  rewrite (matches_valid _ _ Hb), IH. reflexivity.
Qed.

Lemma keeps_matches_query (query : string) (b : Index.Obj) :
  query <> "" -> Index.isValid b = true ->
  keeps query b = true <-> matches_query query (Index.val b).
Proof.
  intros Hq Hvalid. unfold keeps, Index.matches, matches_query, Index.isValid in *.
  destruct (title (Index.val b)) as [t|]; [|discriminate].
  rewrite !orb_true_iff. split.
  - intros [[Ht | Ha] | Htags].
    + left. exists t. split; [reflexivity|]. now apply includes_ignoring_case.
    + right; left. destruct (author (Index.val b)) as [a|]; [|discriminate].
      apply andb_true_iff in Ha as [_ Ha].
      exists a. split; [reflexivity|]. now apply includes_ignoring_case.
    + right; right. destruct (tags (Index.val b)) as [ts|]; [|discriminate].
      apply existsb_exists in Htags as (tag & Hin & Htag).
      exists ts, tag. repeat split; [exact Hin|]. now apply includes_ignoring_case.
  - intros [(t' & [= <-] & Ht) | [(a & Ha & Hocc) | (ts & tag & Hts & Hin & Hocc)]].
    + left; left. now apply includes_ignoring_case.
    + left; right. rewrite Ha. apply andb_true_iff. split.
      * apply truthy_string_true. intros ->. now apply occurs_in_empty in Hocc.
      * now apply includes_ignoring_case.
    + right. rewrite Hts. apply existsb_exists. exists tag. split; [exact Hin|].
      now apply includes_ignoring_case.
Qed.

Lemma filter_sublist_of {A} (f : A -> bool) (l : list A) : List.filter f l `sublist_of` l.
Proof.
  induction l as [|x l IH]; simpl; [constructor|].
  destruct (f x); now constructor.
Qed.

Lemma filter_partition {A} (f : A -> bool) (l : list A) :
  Permutation l (List.filter f l ++ List.filter (fun x => negb (f x)) l).
Proof.
  induction l as [|x l IH]; simpl; [constructor|].
  destruct (f x); simpl.
  - now constructor.
  - now apply Permutation_cons_app.
Qed.

Lemma updateBookshelf_books (shown : list Index.Obj) (p : Index.Page) :
  Index.books (Index.updateBookshelf shown p) = Index.books p.
Proof. unfold Index.updateBookshelf. now destruct (_ =? _)%nat. Qed.

Lemma updateDisplay_books (p : Index.Page) :
  Index.books (Index.updateDisplay p) = Index.books p.
Proof. unfold Index.updateDisplay. now rewrite updateBookshelf_books. Qed.

(** [updateDisplay] paints the grid of all the books of the page. *)
Lemma updateDisplay_table (p : Index.Page) :
  Index.table (Index.updateDisplay p) =
  Index.table (Index.updateBookshelf (Index.books p) p).
Proof.
  unfold Index.updateDisplay, Index.updateBookshelf.
  now destruct (_ =? _)%nat.
Qed.

(** Every load leaves the page with valid books only, and never throws. *)
Lemma loadBooksForIndex_valid (p : Index.Page) (w : World) :
  exists p' w', Index.loadBooksForIndex p w = (Return p', w') /\
                valid_books (Index.books p').
Proof.
  unfold Index.loadBooksForIndex, try_catch, bind.
  destruct (loadBooks w) as [[allBooks|e] w1]; simpl.
  - eexists _, _. split; [reflexivity|]. simpl.
    apply Forall_forall. intros b Hb. apply list_elem_of_In, filter_In in Hb. tauto.
  - eexists _, _. split; [reflexivity|]. constructor.
Qed.

(** C1. On the list page, [searchBooks] shows a stable subsequence of the
    page's books: all of them, unchanged and in order, when the query is
    empty or only white space; otherwise exactly the books in which the
    query occurs, letter case aside, in the title, the author or a tag,
    the books left out being those in which it occurs nowhere. *)
Theorem searchBooks_shows_matching_books (p : Index.Page) (query : string)
    (Hvalid : valid_books (Index.books p)) :
  exists p' result,
    Index.searchBooks query p = Return p' /\
    Index.books p' = Index.books p /\
    Index.table p' = Index.table (Index.updateBookshelf result p) /\
    result `sublist_of` Index.books p /\
    (Js.trim query = "" -> result = Index.books p) /\
    (Js.trim query <> "" ->
     (forall b, In b result <->
                In b (Index.books p) /\ matches_query query (Index.val b)) /\
     exists skipped,
       Permutation (Index.books p) (result ++ skipped) /\
       forall b, In b skipped -> ~ matches_query query (Index.val b)).
Proof.
  assert (Hall : forall b, In b (Index.books p) -> Index.isValid b = true).
  { intros b Hb. unfold valid_books in Hvalid. rewrite Forall_forall in Hvalid.
    apply Hvalid. now apply list_elem_of_In. }
  unfold Index.searchBooks.
  destruct (Js.truthy_string (Js.trim query)) eqn:Hblank; simpl.
  - apply truthy_string_true in Hblank.
    assert (Hq : query <> "") by (intros ->; now apply Hblank).
    rewrite (filter_with_valid _ _ Hvalid).
    exists (Index.updateBookshelf (List.filter (keeps query) (Index.books p)) p),
           (List.filter (keeps query) (Index.books p)).
    split; [reflexivity|].
    split; [apply updateBookshelf_books|].
    split; [reflexivity|].
    split; [apply filter_sublist_of|].
    split; [intros Hempty; contradiction|].
    intros _. split.
    + intros b. rewrite filter_In. split.
      * intros [Hin Hkeep]. split; [exact Hin|].
        apply (keeps_matches_query query b Hq (Hall b Hin)). exact Hkeep.
      * intros [Hin Hm]. split; [exact Hin|].
        apply (keeps_matches_query query b Hq (Hall b Hin)). exact Hm.
    + exists (List.filter (fun b => negb (keeps query b)) (Index.books p)).
      split; [apply filter_partition|].
      intros b Hb Hm. apply filter_In in Hb as [Hin Hkeep].
      apply (keeps_matches_query query b Hq (Hall b Hin)) in Hm.
      rewrite Hm in Hkeep. discriminate.
  - apply truthy_string_false in Hblank.
    exists (Index.updateDisplay p), (Index.books p).
    split; [reflexivity|].
    split; [apply updateDisplay_books|].
    split; [apply updateDisplay_table|].
    split; [reflexivity|].
    split; [reflexivity|].
    intros Hne. contradiction.
Qed.


(** ** The list page: the grid *)

Section Grid.

Local Open Scope nat_scope.

Variables bs shown : list Index.Obj.

Lemma fill_row_cells (k i : nat) :
  k <= length shown - i ->
  Index.fill_row bs shown k i = (cells_of bs (take k (drop i shown)), i + k).
Proof.
  revert i. induction k as [|k IH]; intros i Hk; simpl.
  - f_equal. lia.
  - destruct (lookup_lt_is_Some_2 shown i) as [x Hx]; [lia|].
    rewrite Hx, IH by lia. rewrite (drop_S _ _ _ Hx). simpl. f_equal. lia.
Qed.

Lemma rows_from_beyond (r i i' : nat) :
  length shown <= i -> length shown <= i' ->
  rows_from bs shown r i = rows_from bs shown r i'.
Proof.
  revert i i'. induction r as [|r IH]; intros i i' Hi Hi'; simpl; [reflexivity|].
  rewrite !drop_ge by lia. f_equal. apply IH; lia.
Qed.

Lemma fill_rows_rows_from (r i : nat) :
  Index.fill_rows bs shown r i = rows_from bs shown r i.
Proof.
  revert i. induction r as [|r IH]; intros i; [reflexivity|].
  cbn [Index.fill_rows rows_from].
  rewrite fill_row_cells by apply Nat.le_min_r.
  rewrite IH. f_equal.
  - f_equal. unfold Index.booksPerRow.
    rewrite <- (length_drop shown i), <- take_take. f_equal. now apply take_ge.
  - unfold Index.booksPerRow.
    destruct (le_lt_dec 8 (length shown - i)) as [Hfull | Hshort].
    + now rewrite Nat.min_l.
    + rewrite Nat.min_r by lia. apply rows_from_beyond; lia.
Qed.

Lemma rows_from_length (r i : nat) : length (rows_from bs shown r i) = r.
Proof. revert i. induction r as [|r IH]; intros i; simpl; [reflexivity | now rewrite IH]. Qed.

Lemma rows_from_lookup (r i j : nat) :
  j < r ->
  rows_from bs shown r i !! j = Some (cells_of bs (take 8 (drop (i + 8 * j) shown))).
Proof.
  revert i j. induction r as [|r IH]; intros i j Hj; [lia|].
  destruct j as [|j]; simpl.
  - do 4 f_equal. lia.
  - rewrite IH by lia. do 4 f_equal. lia.
Qed.

Lemma rows_from_concat (r i : nat) :
  concat (rows_from bs shown r i) = cells_of bs (take (8 * r) (drop i shown)).
Proof.
  revert i. induction r as [|r IH]; intros i.
  - reflexivity.
  - cbn [rows_from concat]. rewrite IH. unfold cells_of.
    rewrite <- List.map_app. f_equal.
    rewrite <- (drop_drop shown 8 i), take_take_drop. f_equal. lia.
Qed.

Lemma ceil_div_8 (n : nat) :
  Index.ceil_div n 8 = (n + 7) / 8 /\
  (n <> 0 -> 8 * (Index.ceil_div n 8 - 1) < n <= 8 * Index.ceil_div n 8).
Proof.
  unfold Index.ceil_div.
  pose proof (Nat.div_mod n 8 ltac:(lia)) as Hn.
  pose proof (Nat.mod_upper_bound n 8 ltac:(lia)) as Hm.
  assert (Hq : (n + 7) / 8 = n / 8 + (if n mod 8 =? 0 then 0 else 1)).
  { symmetry. apply Nat.div_unique with (r := if n mod 8 =? 0 then 7 else n mod 8 - 1);
      destruct (Nat.eqb_spec (n mod 8) 0); lia. }
  split; [now rewrite Hq|].
  intros Hpos. destruct (Nat.eqb_spec (n mod 8) 0); lia.
Qed.

End Grid.

Lemma updateBookshelf_rows (p : Index.Page) (shown : list Index.Obj) :
  shown <> [] ->
  Index.table (Index.updateBookshelf shown p) =
  rows_from (Index.books p) shown (Index.ceil_div (length shown) 8) 0.
Proof.
  intros Hne. unfold Index.updateBookshelf, Index.booksPerRow.
  destruct (Nat.eqb_spec (length shown) 0) as [Hzero | Hpos].
  - destruct shown; [contradiction | discriminate].
  - cbn [Index.table Index.set_table]. apply fill_rows_rows_from.
Qed.

Lemma updateBookshelf_cells (p : Index.Page) (shown : list Index.Obj) :
  shown <> [] ->
  concat (Index.table (Index.updateBookshelf shown p)) = cells_of (Index.books p) shown.
Proof.
  intros Hne. rewrite updateBookshelf_rows by exact Hne.
  destruct (ceil_div_8 (length shown)) as [_ Hbounds].
  assert (Hpos : length shown <> 0%nat) by (destruct shown; [contradiction | discriminate]).
  specialize (Hbounds Hpos).
  rewrite rows_from_concat, drop_0, take_ge by lia. reflexivity.
Qed.

(** C2. With eight columns, [updateBookshelf] lays [N] books out in
    ceil(N/8) rows, in input order, eight to a row, the last row holding
    [N mod 8] cells (eight when that is zero); for no books it makes one
    row with a single cell that spans the eight columns and reads
    "No books to display". *)
Theorem updateBookshelf_grid (p : Index.Page) (shown : list Index.Obj) :
  let rows := Index.table (Index.updateBookshelf shown p) in
  let N := length shown in
  (N = 0%nat ->
   exists cell, rows = [[cell]] /\
                Index.colSpan cell = 8 /\
                Index.innerHTML cell = "<p>No books to display</p>" /\
                Index.onclick cell = None) /\
  (N <> 0%nat ->
   length rows = ((N + 7) / 8)%nat /\
   (8 * (length rows - 1) < N <= 8 * length rows)%nat /\
   concat rows = cells_of (Index.books p) shown /\
   (forall j row, rows !! j = Some row ->
                  row = cells_of (Index.books p) (take 8 (drop (8 * j) shown))) /\
   (exists final, last rows = Some final /\
                  length final = if (N mod 8 =? 0)%nat then 8%nat else (N mod 8)%nat)).
Proof.
  intros rows N. subst rows. unfold Index.updateBookshelf, Index.booksPerRow. fold N.
  destruct (Nat.eqb_spec N 0) as [Hzero | Hpos]; cbn [Index.table Index.set_table].
  - split; [intros _ | intros Hne; contradiction].
    eexists. split; [reflexivity|]. cbn. auto.
  - split; [intros Hz; contradiction | intros _].
    rewrite fill_rows_rows_from.
    destruct (ceil_div_8 N) as [Hceil Hbounds]. specialize (Hbounds Hpos).
    set (r := Index.ceil_div N 8) in *.
    rewrite rows_from_length.
    split; [exact Hceil|]. split; [exact Hbounds|]. split; [|split].
    + rewrite rows_from_concat, drop_0, take_ge by (fold N; lia). reflexivity.
    + intros j row Hrow.
      assert (Hj : (j < r)%nat).
      { apply lookup_lt_Some in Hrow. now rewrite rows_from_length in Hrow. }
      rewrite rows_from_lookup in Hrow by exact Hj. now inversion Hrow.
    + rewrite last_lookup, rows_from_length, rows_from_lookup by lia.
      eexists. split; [reflexivity|].
      unfold cells_of. rewrite List.length_map, length_take, length_drop. fold N.
      pose proof (Nat.div_mod N 8 ltac:(lia)) as Hn.
      pose proof (Nat.mod_upper_bound N 8 ltac:(lia)) as Hm.
      subst r. unfold Index.ceil_div in *.
      destruct (Nat.eqb_spec (N mod 8) 0); lia.
Qed.

(** ** The persistence client *)

(** Runs the client's code on a world whose next exchange is known. *)
Ltac run_client :=
  cbv [loadBooks loadBooks_try saveBooks saveBooks_try try_catch bind ret throw
       now json fetch_get fetch_post emit alert navigate next_exchange read_file
       write_file getBookIdFromUrl upcoming_fault file net clock url_id trace
       fault latency payload ok Server.get_books Server.post_books] in *.

Ltac by_exchange w :=
  destruct w as [stored [|[[] took] rest] time param seen]; run_client.

(** C7. The persistence client never raises: [loadBooks] always returns,
    and returns the empty sequence whenever its [try] block throws, as it
    does on a transport or a parse error; [saveBooks] always returns a
    boolean, [false] whenever its [try] block throws and when the server
    does not accept the document. *)
Theorem persistence_client_fails_soft (w : World) (books : list Book) :
  (exists loaded w', loadBooks w = (Return loaded, w')) /\
  (forall e w', loadBooks_try w = (Throw e, w') -> loadBooks w = (Return [], w')) /\
  (upcoming_fault w = Unreachable \/ upcoming_fault w = Garbled ->
   exists e w', loadBooks_try w = (Throw e, w') /\ loadBooks w = (Return [], w')) /\
  (exists accepted w', saveBooks books w = (Return accepted, w')) /\
  (forall e w', saveBooks_try books w = (Throw e, w') ->
                saveBooks books w = (Return false, w')) /\
  (upcoming_fault w = Unreachable ->
   exists e w', saveBooks_try books w = (Throw e, w') /\
                saveBooks books w = (Return false, w')) /\
  (upcoming_fault w = DiskError ->
   exists w', saveBooks books w = (Return false, w') /\ file w' = file w).
Proof.
  repeat apply conj.
  - unfold loadBooks, try_catch, ret.
    destruct (loadBooks_try w) as [[loaded|e] w']; eauto.
  - intros e w' H. unfold loadBooks, try_catch, ret. now rewrite H.
  - intros H. by_exchange w; destruct H as [H|H]; try discriminate H; eauto.
  - unfold saveBooks, try_catch, ret.
    destruct (saveBooks_try books w) as [[accepted|e] w']; eauto.
  - intros e w' H. unfold saveBooks, try_catch, ret. now rewrite H.
  - intros H. by_exchange w; try discriminate H; eauto.
  - intros H. by_exchange w; try discriminate H; eauto.
Qed.

Lemma loadBooks_effect (w w1 : World) (loaded : list Book) :
  loadBooks w = (Return loaded, w1) ->
  trace w1 = (trace w ++ [Fetched "GET" None])%list /\
  file w1 = file w /\ url_id w1 = url_id w.
Proof. by_exchange w; intros [= <- <-]; repeat split. Qed.

Lemma loadBooks_returns (w : World) :
  exists loaded w1, loadBooks w = (Return loaded, w1).
Proof. by_exchange w; eauto. Qed.

Lemma saveBooks_effect (w : World) (books : list Book) :
  exists accepted w' d,
    saveBooks books w = (Return accepted, w') /\
    trace w' = (trace w ++ [Fetched "POST" (Some d)])%list /\
    d = Doc.mk (Some "Little Library") (Some (ISO (clock w)))
               (Some (Z.of_nat (length books))) (Some books) /\
    file w' = (if accepted then Some d else file w) /\
    url_id w' = url_id w.
Proof. by_exchange w; eexists _, _, _; repeat split. Qed.

(** C9. The document [saveBooks] transmits holds the books it was given,
    their count as [totalBooks] and the time of the call as [lastUpdated];
    an accepted document replaces the stored one. Reading checks nothing:
    [loadBooks] returns the books of the stored document whatever its
    [totalBooks] says. *)
Theorem saveBooks_document_invariant (w : World) (books : list Book) :
  (exists accepted w' d,
     saveBooks books w = (Return accepted, w') /\
     trace w' = (trace w ++ [Fetched "POST" (Some d)])%list /\
     Doc.books d = Some books /\
     Doc.totalBooks d = Some (Z.of_nat (length books)) /\
     Doc.lastUpdated d = Some (ISO (clock w)) /\
     file w' = (if accepted then Some d else file w)) /\
  (forall stored,
     file w = Some stored -> upcoming_fault w = Healthy ->
     exists w', loadBooks w = (Return (default [] (Doc.books stored)), w')).
Proof.
  split.
  - destruct (saveBooks_effect w books) as (accepted & w' & d & Hs & Ht & -> & Hf & _).
    now exists accepted, w', (Doc.mk (Some "Little Library") (Some (ISO (clock w)))
                                 (Some (Z.of_nat (length books))) (Some books)).
  - intros d Hfile Hfault. by_exchange w; try discriminate Hfault;
      subst stored; destruct d as [? ? ? [bs|]]; eexists; reflexivity.
Qed.

(** ** The detail page *)

Lemma try_bind_run {A B} (m : M A) (k : A -> M B) (h : Error -> M B)
    (w w1 : World) (a : A) :
  m w = (Return a, w1) -> try_catch (bind m k) h w = try_catch (k a) h w1.
Proof. unfold try_catch, bind. now intros ->. Qed.

Lemma findIndex_from_spec {A} (test : A -> bool) (l : list A) (i : Z) :
  (Detail.findIndex_from test l i = -1 /\ forall x, In x l -> test x = false) \/
  (exists (k : nat) (x : A),
     Detail.findIndex_from test l i = i + Z.of_nat k /\
     l !! k = Some x /\ test x = true /\
     forall (j : nat) (y : A), (j < k)%nat -> l !! j = Some y -> test y = false).
Proof.
  revert i. induction l as [|a l IH]; intros i; simpl.
  - left. split; [reflexivity | intros x []].
  - destruct (test a) eqn:Ha.
    + right. exists 0%nat, a. repeat split; [lia | exact Ha | intros j y Hj; lia].
    + destruct (IH (i + 1)) as [[Hnone Hall] | (k & x & Hk & Hx & Htest & Hbefore)].
      * left. split; [exact Hnone|]. intros x [<- | Hin]; auto.
      * right. exists (S k), x. repeat split; [lia | exact Hx | exact Htest |].
        intros [|j] y Hj Hy; simpl in Hy;
          [now inversion Hy; subst | apply (Hbefore j); [lia | exact Hy]].
Qed.

Lemma findIndex_spec {A} (test : A -> bool) (l : list A) :
  (Detail.findIndex test l = -1 /\ forall x, In x l -> test x = false) \/
  (exists (k : nat) (x : A),
     Detail.findIndex test l = Z.of_nat k /\
     l !! k = Some x /\ test x = true /\
     forall (j : nat) (y : A), (j < k)%nat -> l !! j = Some y -> test y = false).
Proof.
  unfold Detail.findIndex.
  destruct (findIndex_from_spec test l 0) as [H | (k & x & Hk & H)]; [now left | right].
  exists k, x. now rewrite Hk.
Qed.

Lemma present_nonempty (bookId : string) :
  bookId <> "" -> Detail.present (Some bookId) = Some bookId.
Proof. intros H. unfold Detail.present. now apply truthy_string_true in H as ->. Qed.

Lemma present_start {A} (w : World) (bookId : string) (stop : M A) (k : string -> M A) :
  url_id w = Some bookId -> bookId <> "" ->
  (let* param := getBookIdFromUrl in
   match Detail.present param with
   | None => stop
   | Some found => k found
   end) w = k bookId w.
Proof.
  intros Hid Hpresent. unfold bind, getBookIdFromUrl.
  now rewrite Hid, (present_nonempty _ Hpresent).
Qed.

Lemma set_status_frame (newStatus : string) (b : Book) :
  status (Detail.set_status newStatus b) = Some newStatus /\
  same_except_status b (Detail.set_status newStatus b).
Proof. unfold same_except_status. simpl. repeat split. Qed.

Section DetailHandlers.

Variables (w w1 : World) (bookId : string) (loaded : list Book).
Hypothesis Hid : url_id w = Some bookId.
Hypothesis Hpresent : bookId <> "".
Hypothesis Hload : loadBooks w = (Return loaded, w1).

Local Abbreviation carries := (fun b : Book => Js.loose_eq (id b) bookId).

(** [updateStatus] when [findIndex] finds position [k]. *)
Lemma updateStatus_found (newStatus : string) (k : nat) :
  Detail.findIndex carries loaded = Z.of_nat k ->
  exists (d : Doc.t) (accepted : bool) (w2 : World),
    Detail.updateStatus newStatus w = (Return tt, w2) /\
    trace w2 = (trace w ++
                [Fetched "GET" None; Fetched "POST" (Some d);
                 Alert (if accepted then "Status updated to: " +:+ newStatus
                        else "Error updating status. Please try again.")])%list /\
    file w2 = (if accepted then Some d else file w) /\
    Doc.books d = Some (alter (Detail.set_status newStatus) k loaded).
Proof.
  intros Hk. destruct (loadBooks_effect _ _ _ Hload) as (Htrace1 & Hfile1 & _).
  unfold Detail.updateStatus. rewrite (present_start _ _ _ _ Hid Hpresent).
  rewrite (try_bind_run _ _ _ _ _ _ Hload). rewrite Hk.
  replace (Z.of_nat k =? -1) with false by lia. rewrite Nat2Z.id.
  destruct (saveBooks_effect w1 (alter (Detail.set_status newStatus) k loaded))
    as (accepted & w2 & d & Hsave & Htrace2 & Hd & Hfile2 & _).
  unfold try_catch, bind. rewrite Hsave. exists d, accepted.
  destruct accepted; cbn; (eexists; split; [reflexivity|]; cbn;
    rewrite Htrace2, Hfile2, Htrace1, <- ?Hfile1, <- !app_assoc;
    split; [reflexivity|]; split; [reflexivity|]; now rewrite Hd).
Qed.

(** [updateStatus] when [findIndex] finds nothing. *)
Lemma updateStatus_missing (newStatus : string) :
  Detail.findIndex carries loaded = -1 ->
  exists w2,
    Detail.updateStatus newStatus w = (Return tt, w2) /\
    trace w2 = (trace w ++ [Fetched "GET" None; Alert "Book not found"])%list /\
    file w2 = file w.
Proof.
  intros Hk. destruct (loadBooks_effect _ _ _ Hload) as (Htrace1 & Hfile1 & _).
  unfold Detail.updateStatus. rewrite (present_start _ _ _ _ Hid Hpresent).
  rewrite (try_bind_run _ _ _ _ _ _ Hload). rewrite Hk.
  cbn. eexists. split; [reflexivity|]. cbn.
  rewrite Htrace1, Hfile1, <- app_assoc. auto.
Qed.

(** [deleteBook] when [find] finds [book]. *)
Lemma deleteBook_found (answer : bool) (book : Book) :
  List.find carries loaded = Some book ->
  exists (question : string) (w2 : World),
    Detail.deleteBook answer w = (Return tt, w2) /\
    if answer then
      exists (d : Doc.t) (accepted : bool) (notice : string),
        Doc.books d = Some (List.filter (fun b => negb (Js.loose_eq (id b) bookId)) loaded) /\
        file w2 = (if accepted then Some d else file w) /\
        trace w2 =
          (trace w ++
           [Fetched "GET" None; Confirm question true; Fetched "POST" (Some d)] ++
           (if accepted then [Alert notice; Navigate "index.html"]
            else [Alert "Error deleting book. Please try again."]))%list
    else
      file w2 = file w /\
      trace w2 = (trace w ++ [Fetched "GET" None; Confirm question false])%list.
Proof.
  intros Hfind. destruct (loadBooks_effect _ _ _ Hload) as (Htrace1 & Hfile1 & _).
  unfold Detail.deleteBook. rewrite (present_start _ _ _ _ Hid Hpresent).
  rewrite (try_bind_run _ _ _ _ _ _ Hload). rewrite Hfind.
  set (remainder := List.filter (fun b => negb (Js.loose_eq (id b) bookId)) loaded).
  remember ("Are you sure you want to delete " +:+ Index.dq +:+
            Detail.shown (title book) +:+ Index.dq +:+
            "? This action cannot be undone.") as question eqn:Hquestion.
  exists question.
  unfold Detail.confirm, try_catch, bind, emit, ret. cbv beta iota.
  destruct answer.
  - destruct (saveBooks_effect
                (mkWorld (file w1) (net w1) (clock w1) (url_id w1)
                         (trace w1 ++ [Confirm question true])) remainder)
      as (accepted & w2 & d & Hsave & Htrace2 & Hd & Hfile2 & _).
    fold remainder. rewrite Hsave. cbn in Htrace2, Hfile2.
    exists (if accepted
            then mkWorld (file w2) (net w2) (clock w2) (url_id w2)
                         ((trace w2 ++
                           [Alert (Index.dq +:+ Detail.shown (title book) +:+ Index.dq +:+
                                   " has been deleted from your library.")]) ++
                          [Navigate "index.html"])
            else mkWorld (file w2) (net w2) (clock w2) (url_id w2)
                         (trace w2 ++ [Alert "Error deleting book. Please try again."])).
    split; [now destruct accepted|].
    exists d, accepted,
           (Index.dq +:+ Detail.shown (title book) +:+ Index.dq +:+
            " has been deleted from your library.").
    split; [now rewrite Hd|].
    destruct accepted; cbn; rewrite Htrace2, Hfile2, Htrace1, <- ?Hfile1;
      (split; [reflexivity|]); rewrite <- !app_assoc; reflexivity.
  - cbn. eexists. split; [reflexivity|]. cbn.
    rewrite Htrace1, Hfile1, <- app_assoc. auto.
Qed.

End DetailHandlers.

(** C3. With an identifier in the URL, [updateStatus] reloads the
    collection. If a book carries the identifier, the document it sends
    holds the collection with the status of the first such book replaced:
    the book's other fields, the other books and the order are as loaded,
    and the document replaces the stored one when the server accepts it.
    If no book carries it, nothing is sent, the stored document stays and
    the user is told "Book not found". *)
Theorem updateStatus_changes_only_status
    (w w1 : World) (bookId newStatus : string) (loaded : list Book)
    (Hid : url_id w = Some bookId) (Hpresent : bookId <> "")
    (Hload : loadBooks w = (Return loaded, w1)) :
  ((exists b, In b loaded /\ has_id bookId b) ->
   exists (i : nat) (b b' : Book) (saved : list Book) (d : Doc.t)
          (accepted : bool) (w2 : World),
     loaded !! i = Some b /\ has_id bookId b /\
     (forall j b0, (j < i)%nat -> loaded !! j = Some b0 -> ~ has_id bookId b0) /\
     Detail.updateStatus newStatus w = (Return tt, w2) /\
     trace w2 = (trace w ++
                 [Fetched "GET" None; Fetched "POST" (Some d);
                  Alert (if accepted then "Status updated to: " +:+ newStatus
                         else "Error updating status. Please try again.")])%list /\
     file w2 = (if accepted then Some d else file w) /\
     Doc.books d = Some saved /\
     length saved = length loaded /\
     saved !! i = Some b' /\
     status b' = Some newStatus /\
     same_except_status b b' /\
     (forall j, j <> i -> saved !! j = loaded !! j)) /\
  ((forall b, In b loaded -> ~ has_id bookId b) ->
   exists w2,
     Detail.updateStatus newStatus w = (Return tt, w2) /\
     trace w2 = (trace w ++ [Fetched "GET" None; Alert "Book not found"])%list /\
     file w2 = file w).
Proof.
  destruct (findIndex_spec (fun b => Js.loose_eq (id b) bookId) loaded)
    as [[Hnone Hall] | (k & x & Hk & Hx & Htest & Hbefore)].
  - split.
    + intros (b & Hin & Hb). unfold has_id in Hb. rewrite (Hall b Hin) in Hb. discriminate.
    + intros _. exact (updateStatus_missing w w1 bookId loaded Hid Hpresent Hload newStatus Hnone).
  - split.
    + intros _.
      destruct (updateStatus_found w w1 bookId loaded Hid Hpresent Hload newStatus k Hk)
        as (d & accepted & w2 & Hrun & Htrace & Hfile & Hbooks).
      destruct (set_status_frame newStatus x) as [Hstatus Hsame].
      exists k, x, (Detail.set_status newStatus x),
             (alter (Detail.set_status newStatus) k loaded), d, accepted, w2.
      split; [exact Hx|]. split; [exact Htest|].
      split; [intros j b0 Hj Hb0 Hhas; unfold has_id in Hhas;
              rewrite (Hbefore j b0 Hj Hb0) in Hhas; discriminate|].
      split; [exact Hrun|].
      split; [exact Htrace|]. split; [exact Hfile|]. split; [exact Hbooks|].
      split; [apply length_alter|].
      split; [now rewrite list_lookup_alter_eq, Hx|].
      split; [exact Hstatus|]. split; [exact Hsame|].
      intros j Hj. now apply list_lookup_alter_ne.
    + intros Hno. exfalso. apply (Hno x); [|exact Htest].
      apply list_elem_of_In. eapply list_elem_of_lookup_2. exact Hx.
Qed.

(** C4. With an identifier in the URL that some loaded book carries,
    [deleteBook] reloads the collection and asks the user. Without the
    user's confirmation nothing is sent and the stored document stays.
    With it, the document sent holds the loaded books without those that
    carry the identifier, the others all kept and in their order; once the
    server has accepted it, it is the stored document and the page moves to
    the list view. *)
Theorem deleteBook_removes_exactly_that_id
    (w w1 : World) (bookId : string) (loaded : list Book) (answer : bool)
    (Hid : url_id w = Some bookId) (Hpresent : bookId <> "")
    (Hload : loadBooks w = (Return loaded, w1))
    (Hfound : exists b, In b loaded /\ has_id bookId b) :
  exists (remainder : list Book) (question : string) (w2 : World),
    Detail.deleteBook answer w = (Return tt, w2) /\
    remainder `sublist_of` loaded /\
    (forall b, In b remainder <-> In b loaded /\ ~ has_id bookId b) /\
    (exists removed, Permutation loaded (remainder ++ removed) /\
                     forall b, In b removed -> has_id bookId b) /\
    if answer then
      exists (d : Doc.t) (accepted : bool) (notice : string),
        Doc.books d = Some remainder /\
        file w2 = (if accepted then Some d else file w) /\
        trace w2 =
          (trace w ++
           [Fetched "GET" None; Confirm question true; Fetched "POST" (Some d)] ++
           (if accepted then [Alert notice; Navigate "index.html"]
            else [Alert "Error deleting book. Please try again."]))%list
    else
      file w2 = file w /\
      trace w2 = (trace w ++ [Fetched "GET" None; Confirm question false])%list.
Proof.
  destruct (List.find (fun b => Js.loose_eq (id b) bookId) loaded) as [book|] eqn:Hfind.
  2:{ destruct Hfound as (b & Hin & Hb). unfold has_id in Hb.
      now rewrite (find_none _ _ Hfind b Hin) in Hb. }
  destruct (deleteBook_found w w1 bookId loaded Hid Hpresent Hload answer book Hfind)
    as (question & w2 & Hrun & Hrest).
  exists (List.filter (fun b => negb (Js.loose_eq (id b) bookId)) loaded), question, w2.
  split; [exact Hrun|]. split; [apply filter_sublist_of|]. split; [|split; [|exact Hrest]].
  - intros b. unfold has_id. rewrite filter_In, negb_true_iff.
    destruct (Js.loose_eq (id b) bookId); intuition congruence.
  - exists (List.filter (fun b => negb (negb (Js.loose_eq (id b) bookId))) loaded).
    split; [apply filter_partition|].
    intros b Hb. apply filter_In in Hb as [_ Hb]. unfold has_id.
    now destruct (Js.loose_eq (id b) bookId).
Qed.

Lemma NoDup_map_injective {A B} (f : A -> B) (l : list A) (a b : A) :
  NoDup (List.map f l) -> In a l -> In b l -> f a = f b -> a = b.
Proof.
  induction l as [|x l IH]; intros Hnd Ha Hb Hf; [destruct Ha|].
  simpl in Hnd. apply NoDup_cons in Hnd as [Hx Hnd].
  rewrite list_elem_of_In in Hx.
  destruct Ha as [<- | Ha], Hb as [<- | Hb]; [reflexivity | | |now apply IH].
  - exfalso. apply Hx. rewrite Hf. now apply in_map.
  - exfalso. apply Hx. rewrite <- Hf. now apply in_map.
Qed.

Lemma get_document_title (book : Book) (d : Detail.Dom) :
  Detail.get "document.title"
    (Detail.setupStatusDropdown book
       (Detail.setupOptionalFields book (Detail.setupCoverImage book d))) =
  Detail.get "document.title" d.
Proof.
  unfold Detail.setupStatusDropdown, Detail.setupOptionalFields, Detail.setupCoverImage,
    Detail.show_rows, Detail.set, Detail.get.
  destruct (Detail.filled (status book));
    destruct (Detail.filled (description book)) as [t1|];
    [destruct (Js.truthy_string (Js.trim t1))| |destruct (Js.truthy_string (Js.trim t1))|];
    (destruct (Detail.filled (review book)) as [t2|];
     [destruct (Js.truthy_string (Js.trim t2))|]);
    (destruct (tags book) as [[|? ?]|]);
    (destruct (Detail.filled (coverImage book)) as [t3|];
     [destruct (Js.truthy_string (Js.trim t3))|]);
    reflexivity.
Qed.

(** C10. When the ids of the loaded books are numbers, no two alike, the
    decimal numeral of a book's id in the URL is loosely equal to that id
    and to no other, so the three handlers of the detail page find exactly
    that book: [displayBookDetails] shows it, [updateStatus] saves the
    collection with its status replaced, and a confirmed [deleteBook] saves
    the collection without it. *)
Theorem decimal_id_locates_its_book
    (w w1 : World) (loaded : list Book) (book : Book) (n : Z)
    (Hnumbers : forall b, In b loaded -> exists m, id b = Js.Number m)
    (Hunique : NoDup (List.map id loaded))
    (Hin : In book loaded) (Hn : id book = Js.Number n)
    (Hurl : url_id w = Some (Js.number_to_string n))
    (Hload : loadBooks w = (Return loaded, w1)) :
  (forall b, In b loaded -> (has_id (Js.number_to_string n) b <-> b = book)) /\
  (forall toLocaleDateString dom,
   exists dom',
     Detail.displayBookDetails toLocaleDateString dom w = (Return dom', w1) /\
     Detail.get "document.title" dom' =
       Some (Detail.shown (title book) +:+ " - Little Library")) /\
  (forall newStatus,
   exists (i : nat) (d : Doc.t) (accepted : bool) (w2 : World),
     loaded !! i = Some book /\
     Detail.updateStatus newStatus w = (Return tt, w2) /\
     In (Fetched "POST" (Some d)) (trace w2) /\
     Doc.books d = Some (alter (Detail.set_status newStatus) i loaded)) /\
  (exists (d : Doc.t) (remainder : list Book) (w2 : World),
     Detail.deleteBook true w = (Return tt, w2) /\
     In (Fetched "POST" (Some d)) (trace w2) /\
     Doc.books d = Some remainder /\
     remainder `sublist_of` loaded /\
     forall b, In b remainder <-> In b loaded /\ b <> book).
Proof.
  set (bookId := Js.number_to_string n) in *.
  assert (Hpresent : bookId <> "") by apply number_to_string_nonempty.
  assert (Hiff : forall b, In b loaded -> (has_id bookId b <-> b = book)).
  { intros b Hb. unfold has_id. split.
    - intros Heq. destruct (Hnumbers b Hb) as [m Hm]. rewrite Hm in Heq.
      apply loose_eq_number_to_string in Heq. subst m.
      apply (NoDup_map_injective id loaded); auto. congruence.
    - intros ->. rewrite Hn. now apply loose_eq_number_to_string. }
  assert (Hfind : List.find (fun b => Js.loose_eq (id b) bookId) loaded = Some book).
  { destruct (List.find (fun b => Js.loose_eq (id b) bookId) loaded) as [b|] eqn:Hf.
    - apply find_some in Hf as [Hb Heq]. f_equal. now apply (Hiff b Hb).
    - pose proof (find_none _ _ Hf book Hin) as Hno. cbn in Hno.
      assert (Hyes : has_id bookId book) by now apply Hiff.
      unfold has_id in Hyes. congruence. }
  split; [exact Hiff|]. split; [|split].
  - intros fmt dom. unfold Detail.displayBookDetails.
    rewrite (present_start _ _ _ _ Hurl Hpresent).
    rewrite (try_bind_run _ _ _ _ _ _ Hload). fold bookId. rewrite Hfind.
    unfold try_catch, ret. eexists. split; [reflexivity|].
    destruct (dateAdded book); [change (Detail.get "document.title" (Detail.set ?k ?v ?d))
      with (Detail.get "document.title" d)|]; now rewrite get_document_title.
  - intros newStatus.
    destruct (findIndex_spec (fun b => Js.loose_eq (id b) bookId) loaded)
      as [[_ Hall] | (k & x & Hk & Hx & Htest & _)].
    + pose proof (Hall book Hin) as Hno. cbn in Hno.
      assert (Hyes : has_id bookId book) by now apply Hiff.
      unfold has_id in Hyes. congruence.
    + assert (x = book) as ->.
      { apply Hiff; [|exact Htest]. apply list_elem_of_In.
        eapply list_elem_of_lookup_2. exact Hx. }
      destruct (updateStatus_found w w1 bookId loaded Hurl Hpresent Hload newStatus k Hk)
        as (d & accepted & w2 & Hrun & Htrace & _ & Hbooks).
      exists k, d, accepted, w2. repeat split; auto.
      rewrite Htrace. apply in_or_app. right. simpl. auto.
  - destruct (deleteBook_found w w1 bookId loaded Hurl Hpresent Hload true book Hfind)
      as (question & w2 & Hrun & d & accepted & notice & Hbooks & _ & Htrace).
    exists d, (List.filter (fun b => negb (Js.loose_eq (id b) bookId)) loaded), w2.
    split; [exact Hrun|]. split; [|split; [exact Hbooks|split; [apply filter_sublist_of|]]].
    + rewrite Htrace. apply in_or_app. right. simpl. auto.
    + intros b. rewrite filter_In, negb_true_iff. split.
      * intros [Hb Hne]. split; [exact Hb|]. intros ->.
        assert (Hyes : has_id bookId book) by now apply Hiff.
        unfold has_id in Hyes. congruence.
      * intros [Hb Hne]. split; [exact Hb|].
        destruct (Js.loose_eq (id b) bookId) eqn:Heq; [|reflexivity].
        exfalso. apply Hne. now apply Hiff.
Qed.

(** ** The create form *)

(** C8. When the title is empty once trimmed, [handleAddBook] sends
    nothing, neither the load nor the save: it alerts the user and leaves
    the focus in the title field as the cue; the stored document and the
    form are untouched. *)
Theorem blank_title_makes_no_request (w : World) (formData : AddBook.Form)
    (Hblank : Js.trim (AddBook.title formData) = "") :
  exists w',
    AddBook.handleAddBook formData w = (Return tt, w') /\
    trace w' = (trace w ++
                [PreventDefault; Alert "Please enter a book title"; Focus "title"])%list /\
    (forall method body,
       In (Fetched method body) (trace w') -> In (Fetched method body) (trace w)) /\
    net w' = net w /\
    file w' = file w.
Proof.
  unfold AddBook.handleAddBook. rewrite Hblank.
  cbv [bind emit now alert ret Js.truthy_string String.eqb negb
       file net clock url_id trace].
  eexists. split; [reflexivity|]. cbn [trace file net].
  rewrite <- !app_assoc. split; [reflexivity|]. split; [|split; reflexivity].
  intros method body Hin. apply in_app_or in Hin as [Hin | Hin]; [exact Hin|].
  simpl in Hin. intuition discriminate.
Qed.

(** ** The list page: loading and refocus *)

Lemma loadBooksForIndex_run (p : Index.Page) (w w1 : World) (loaded : list Book) :
  loadBooks w = (Return loaded, w1) ->
  Index.loadBooksForIndex p w =
  (Return (Index.set_books (List.filter Index.isValid (Index.objects loaded)) p), w1).
Proof. intros H. unfold Index.loadBooksForIndex, try_catch, bind. now rewrite H. Qed.

(** C5. On refocus the list page fetches the collection again and takes
    it as its books, and it redraws only if the number of books differs
    from the number it held: with the same number the grid, the heading and
    the empty-library notice stay as they were, whatever changed inside
    the books. *)
Theorem refocus_redraws_only_on_length_change (p : Index.Page) (w : World) :
  exists (p1 p' : Index.Page) (w' : World),
    Index.loadBooksForIndex p w = (Return p1, w') /\
    Index.onFocus p w = (Return p', w') /\
    trace w' = (trace w ++ [Fetched "GET" None])%list /\
    Index.books p' = Index.books p1 /\
    (length (Index.books p1) = length (Index.books p) ->
     Index.table p' = Index.table p /\ Index.heading p' = Index.heading p /\
     Index.emptyTitle p' = Index.emptyTitle p /\
     Index.emptyMessage p' = Index.emptyMessage p) /\
    (length (Index.books p1) <> length (Index.books p) -> p' = Index.updateDisplay p1).
Proof.
  destruct (loadBooks_returns w) as (loaded & w1 & Hload).
  destruct (loadBooks_effect _ _ _ Hload) as (Htrace & _).
  pose proof (loadBooksForIndex_run p w w1 loaded Hload) as Hrun.
  set (p1 := Index.set_books (List.filter Index.isValid (Index.objects loaded)) p) in *.
  exists p1.
  exists (if negb (length (Index.books p1) =? length (Index.books p))%nat
          then Index.updateDisplay p1 else p1), w1.
  split; [exact Hrun|]. split.
  { unfold Index.onFocus, bind. rewrite Hrun.
    now destruct (negb (length (Index.books p1) =? length (Index.books p))%nat). }
  split; [exact Htrace|].
  destruct (Nat.eqb_spec (length (Index.books p1)) (length (Index.books p))) as [Heq | Hne];
    cbn [negb].
  - split; [reflexivity|]. split; [intros _; now subst p1 | intros Hne; contradiction].
  - split; [apply updateDisplay_books|]. split; [intros Heq; contradiction | reflexivity].
Qed.

(** ** The list page: malformed entries *)

Lemma book_cell_error (bs : list Index.Obj) (b : Index.Obj) :
  is_error_cell (Index.book_cell bs (Some b)) = true <->
  title (Index.val b) = None \/ title (Index.val b) = Some "".
Proof.
  unfold Index.book_cell. destruct (title (Index.val b)) as [raw|].
  - destruct (Js.truthy_string raw) eqn:Hraw.
    + apply truthy_string_true in Hraw. split; [discriminate|].
      intros [H | [= H]]; [discriminate | contradiction].
    + apply truthy_string_false in Hraw as ->. split; [now right | reflexivity].
  - split; [now left | reflexivity].
Qed.

Lemma valid_book_cell (bs : list Index.Obj) (b : Index.Obj) :
  Index.isValid b = true -> is_error_cell (Index.book_cell bs (Some b)) = false.
Proof.
  intros Hvalid. destruct (is_error_cell _) eqn:Herr; [|reflexivity].
  apply book_cell_error in Herr. unfold Index.isValid in Hvalid.
  destruct Herr as [H | H]; rewrite H in Hvalid; discriminate.
Qed.

Lemma updateDisplay_no_error_cell (p : Index.Page) :
  valid_books (Index.books p) -> ~ shows_error_cell (Index.updateDisplay p).
Proof.
  intros Hvalid (row & cell & Hrow & Hcell & Herr).
  rewrite updateDisplay_table in Hrow.
  destruct (Index.books p) as [|b bs] eqn:Hbooks.
  - unfold Index.updateBookshelf in Hrow. cbn in Hrow.
    destruct Hrow as [<- | []]. destruct Hcell as [<- | []]. discriminate Herr.
  - assert (Hin : In cell (concat (Index.table (Index.updateBookshelf (b :: bs) p)))).
    { apply in_concat. eauto. }
    rewrite updateBookshelf_cells in Hin by discriminate.
    unfold cells_of in Hin. apply in_map_iff in Hin as (x & <- & Hx).
    rewrite valid_book_cell in Herr; [discriminate|].
    unfold valid_books in Hvalid. rewrite Forall_forall in Hvalid.
    apply Hvalid. now apply list_elem_of_In.
Qed.

(** C6, as the code has it. The grid renderer gives every entry it is
    handed a cell, and an entry without a title (or with an empty one) the
    error-styled cell. The list page never hands it such an entry: loading
    keeps only the books whose title is not blank, so the grid drawn after
    a load shows no error cell. *)
Theorem untitled_entries_reach_no_grid
    (p : Index.Page) (shown : list Index.Obj) (p0 : Index.Page) (w : World) :
  (shown <> [] ->
   concat (Index.table (Index.updateBookshelf shown p)) = cells_of (Index.books p) shown) /\
  (forall b, is_error_cell (Index.book_cell (Index.books p) (Some b)) = true <->
             title (Index.val b) = None \/ title (Index.val b) = Some "") /\
  (exists p1 w',
     Index.onDOMContentLoaded p0 w = (Return p1, w') /\
     (forall b, In b (Index.books p1) ->
                exists t, title (Index.val b) = Some t /\ Js.trim t <> "") /\
     ~ shows_error_cell p1).
Proof.
  split; [apply updateBookshelf_cells|]. split; [apply book_cell_error|].
  destruct (loadBooksForIndex_valid p0 w) as (p1 & w' & Hrun & Hvalid).
  exists (Index.updateDisplay p1), w'.
  split; [unfold Index.onDOMContentLoaded, bind; now rewrite Hrun|]. split.
  - intros b Hb. rewrite updateDisplay_books in Hb.
    unfold valid_books in Hvalid. rewrite Forall_forall in Hvalid.
    apply list_elem_of_In, Hvalid in Hb. unfold Index.isValid in Hb.
    destruct (title (Index.val b)) as [t|]; [|discriminate].
    apply andb_true_iff in Hb as [_ Hb]. apply truthy_string_true in Hb. eauto.
  - now apply updateDisplay_no_error_cell.
Qed.

(** * The properties at work on the sample library *)

Lemma searchBooks_shows_matching_books_witness :
  valid_books (Index.books sample_page) /\
  exists p' result,
    Index.searchBooks "HER" sample_page = Return p' /\
    Index.books p' = Index.books sample_page /\
    Index.table p' = Index.table (Index.updateBookshelf result sample_page) /\
    result `sublist_of` Index.books sample_page /\
    (Js.trim "HER" = "" -> result = Index.books sample_page) /\
    (Js.trim "HER" <> "" ->
     (forall b, In b result <->
                In b (Index.books sample_page) /\ matches_query "HER" (Index.val b)) /\
     exists skipped,
       Permutation (Index.books sample_page) (result ++ skipped) /\
       forall b, In b skipped -> ~ matches_query "HER" (Index.val b)).
Proof.
  assert (Hvalid : valid_books (Index.books sample_page))
    by (repeat constructor).
  split; [exact Hvalid|].
  exact (searchBooks_shows_matching_books sample_page "HER" Hvalid).
Defined.

Lemma updateStatus_changes_only_status_witness :
  url_id (sample_world [dune; emma] (Some "2")) = Some "2" /\
  "2" <> "" /\
  loadBooks (sample_world [dune; emma] (Some "2")) =
    (Return [dune; emma], fetched_world [dune; emma] (Some "2")) /\
  ((exists b, In b [dune; emma] /\ has_id "2" b) ->
   exists (i : nat) (b b' : Book) (saved : list Book) (d : Doc.t)
          (accepted : bool) (w2 : World),
     [dune; emma] !! i = Some b /\ has_id "2" b /\
     (forall j b0, (j < i)%nat -> [dune; emma] !! j = Some b0 -> ~ has_id "2" b0) /\
     Detail.updateStatus "read" (sample_world [dune; emma] (Some "2")) = (Return tt, w2) /\
     trace w2 = (trace (sample_world [dune; emma] (Some "2")) ++
                 [Fetched "GET" None; Fetched "POST" (Some d);
                  Alert (if accepted then "Status updated to: " +:+ "read"
                         else "Error updating status. Please try again.")])%list /\
     file w2 = (if accepted then Some d else file (sample_world [dune; emma] (Some "2"))) /\
     Doc.books d = Some saved /\
     length saved = length [dune; emma] /\
     saved !! i = Some b' /\
     status b' = Some "read" /\
     same_except_status b b' /\
     (forall j, j <> i -> saved !! j = [dune; emma] !! j)) /\
  ((forall b, In b [dune; emma] -> ~ has_id "2" b) ->
   exists w2,
     Detail.updateStatus "read" (sample_world [dune; emma] (Some "2")) = (Return tt, w2) /\
     trace w2 = (trace (sample_world [dune; emma] (Some "2")) ++
                 [Fetched "GET" None; Alert "Book not found"])%list /\
     file w2 = file (sample_world [dune; emma] (Some "2"))).
Proof.
  assert (Hid : url_id (sample_world [dune; emma] (Some "2")) = Some "2") by reflexivity.
  assert (Hpresent : "2" <> "") by discriminate.
  assert (Hload : loadBooks (sample_world [dune; emma] (Some "2")) =
                  (Return [dune; emma], fetched_world [dune; emma] (Some "2")))
    by reflexivity.
  split; [exact Hid|]. split; [exact Hpresent|]. split; [exact Hload|].
  exact (updateStatus_changes_only_status _ _ "2" "read" _ Hid Hpresent Hload).
Defined.

Lemma deleteBook_removes_exactly_that_id_witness :
  url_id (sample_world [dune; emma] (Some "1")) = Some "1" /\
  "1" <> "" /\
  loadBooks (sample_world [dune; emma] (Some "1")) =
    (Return [dune; emma], fetched_world [dune; emma] (Some "1")) /\
  (exists b, In b [dune; emma] /\ has_id "1" b) /\
  exists (remainder : list Book) (question : string) (w2 : World),
    Detail.deleteBook true (sample_world [dune; emma] (Some "1")) = (Return tt, w2) /\
    remainder `sublist_of` [dune; emma] /\
    (forall b, In b remainder <-> In b [dune; emma] /\ ~ has_id "1" b) /\
    (exists removed, Permutation [dune; emma] (remainder ++ removed) /\
                     forall b, In b removed -> has_id "1" b) /\
    exists (d : Doc.t) (accepted : bool) (notice : string),
      Doc.books d = Some remainder /\
      file w2 = (if accepted then Some d
                 else file (sample_world [dune; emma] (Some "1"))) /\
      trace w2 =
        (trace (sample_world [dune; emma] (Some "1")) ++
         [Fetched "GET" None; Confirm question true; Fetched "POST" (Some d)] ++
         (if accepted then [Alert notice; Navigate "index.html"]
          else [Alert "Error deleting book. Please try again."]))%list.
Proof.
  assert (Hid : url_id (sample_world [dune; emma] (Some "1")) = Some "1") by reflexivity.
  assert (Hpresent : "1" <> "") by discriminate.
  assert (Hload : loadBooks (sample_world [dune; emma] (Some "1")) =
                  (Return [dune; emma], fetched_world [dune; emma] (Some "1")))
    by reflexivity.
  assert (Hfound : exists b, In b [dune; emma] /\ has_id "1" b).
  { exists dune. split; [now left | reflexivity]. }
  split; [exact Hid|]. split; [exact Hpresent|]. split; [exact Hload|].
  split; [exact Hfound|].
  exact (deleteBook_removes_exactly_that_id _ _ "1" _ true Hid Hpresent Hload Hfound).
Defined.

Lemma blank_title_makes_no_request_witness :
  Js.trim (AddBook.title blank_form) = "" /\
  exists w',
    AddBook.handleAddBook blank_form (sample_world [dune] None) = (Return tt, w') /\
    trace w' = (trace (sample_world [dune] None) ++
                [PreventDefault; Alert "Please enter a book title"; Focus "title"])%list /\
    (forall method body,
       In (Fetched method body) (trace w') ->
       In (Fetched method body) (trace (sample_world [dune] None))) /\
    net w' = net (sample_world [dune] None) /\
    file w' = file (sample_world [dune] None).
Proof.
  assert (Hblank : Js.trim (AddBook.title blank_form) = "") by reflexivity.
  split; [exact Hblank|].
  exact (blank_title_makes_no_request (sample_world [dune] None) blank_form Hblank).
Defined.

Lemma decimal_id_locates_its_book_witness :
  (forall b, In b [dune; emma] -> exists m, id b = Js.Number m) /\
  NoDup (List.map id [dune; emma]) /\
  In emma [dune; emma] /\
  id emma = Js.Number 2 /\
  url_id (sample_world [dune; emma] (Some "2")) = Some (Js.number_to_string 2) /\
  loadBooks (sample_world [dune; emma] (Some "2")) =
    (Return [dune; emma], fetched_world [dune; emma] (Some "2")) /\
  (forall b, In b [dune; emma] -> (has_id (Js.number_to_string 2) b <-> b = emma)) /\
  (forall toLocaleDateString dom,
   exists dom',
     Detail.displayBookDetails toLocaleDateString dom (sample_world [dune; emma] (Some "2")) =
       (Return dom', fetched_world [dune; emma] (Some "2")) /\
     Detail.get "document.title" dom' =
       Some (Detail.shown (title emma) +:+ " - Little Library")) /\
  (forall newStatus,
   exists (i : nat) (d : Doc.t) (accepted : bool) (w2 : World),
     [dune; emma] !! i = Some emma /\
     Detail.updateStatus newStatus (sample_world [dune; emma] (Some "2")) = (Return tt, w2) /\
     In (Fetched "POST" (Some d)) (trace w2) /\
     Doc.books d = Some (alter (Detail.set_status newStatus) i [dune; emma])) /\
  (exists (d : Doc.t) (remainder : list Book) (w2 : World),
     Detail.deleteBook true (sample_world [dune; emma] (Some "2")) = (Return tt, w2) /\
     In (Fetched "POST" (Some d)) (trace w2) /\
     Doc.books d = Some remainder /\
     remainder `sublist_of` [dune; emma] /\
     forall b, In b remainder <-> In b [dune; emma] /\ b <> emma).
Proof.
  assert (Hnumbers : forall b, In b [dune; emma] -> exists m, id b = Js.Number m).
  { intros b [<- | [<- | []]]; eexists; reflexivity. }
  assert (Hunique : NoDup (List.map id [dune; emma])).
  { apply NoDup_cons. split.
    - rewrite list_elem_of_In. simpl. intuition discriminate.
    - apply NoDup_cons. split; [rewrite list_elem_of_In; simpl; tauto | constructor]. }
  assert (Hin : In emma [dune; emma]) by (simpl; auto).
  assert (Hn : id emma = Js.Number 2) by reflexivity.
  assert (Hurl : url_id (sample_world [dune; emma] (Some "2")) =
                 Some (Js.number_to_string 2)) by reflexivity.
  assert (Hload : loadBooks (sample_world [dune; emma] (Some "2")) =
                  (Return [dune; emma], fetched_world [dune; emma] (Some "2")))
    by reflexivity.
  split; [exact Hnumbers|]. split; [exact Hunique|]. split; [exact Hin|].
  split; [exact Hn|]. split; [exact Hurl|]. split; [exact Hload|].
  exact (decimal_id_locates_its_book _ _ _ emma 2 Hnumbers Hunique Hin Hn Hurl Hload).
Defined.

(** C6, as the specification words it, fails: a stored collection that
    holds an entry without a title beside Dune is drawn as Dune's cell
    alone. *)
Lemma untitled_entry_is_dropped_on_load : ~ malformed_entries_are_surfaced.
Proof.
  intros Hsurfaced.
  destruct (Hsurfaced (sample_world [untitled; dune] None)
                   (fetched_world [untitled; dune] None)
                   blank_page
                   (Index.updateDisplay
                      (Index.set_books [Index.mkObj 1 dune] blank_page))
                   (stored_library [untitled; dune]) [untitled; dune] untitled
                   eq_refl eq_refl eq_refl eq_refl (or_introl eq_refl) eq_refl)
    as (row & cell & Hrow & Hcell & Herr).
  destruct Hrow as [<- | []]. destruct Hcell as [<- | []]. discriminate Herr.
Qed.

Example built_ins :
  Js.trim "  Dune   " = "Dune" /\
  Js.toLowerCase "Frank HERBERT" = "frank herbert" /\
  Js.includes "herbert" "erb" = true /\
  Js.split_comma "scifi, classic,,x" = ["scifi"; " classic"; ""; "x"].
Proof. repeat split. Qed.

Example loose_equality :
  Js.loose_eq (Js.Number 1000) "1000" = true /\
  Js.loose_eq (Js.Number 1000) " 1e3 " = true /\
  Js.loose_eq (Js.Number 1000) "1000.0" = true /\
  Js.loose_eq (Js.Number 16) "0x10" = true /\
  Js.loose_eq (Js.Number 0) "" = true /\
  Js.loose_eq (Js.Number 7) "-7" = false /\
  Js.loose_eq (Js.Number 7) "7a" = false /\
  Js.loose_eq (Js.Str "7") "7" = true /\
  Js.loose_eq Js.Undefined "undefined" = false /\
  Js.number_to_string 1718000000000 = "1718000000000" /\
  Js.number_to_string (-42) = "-42".
Proof. repeat split. Qed.

(** The search box: "her" finds Dune through its author; "here" finds
    nothing, and the page then shows the placeholder row. *)
Example search_by_author :
  (exists p', Index.searchBooks "her" sample_page = Return p' /\
              concat (Index.table p') = cells_of (Index.books sample_page) [Index.mkObj 0 dune]) /\
  (exists p', Index.searchBooks "here" sample_page = Return p' /\
              Index.table p' = Index.table (Index.updateBookshelf [] sample_page)).
Proof. split; eexists; split; reflexivity. Qed.

Example nine_books_make_two_rows :
  List.map (@length Index.Cell)
    (Index.table (Index.updateBookshelf nine_books blank_page)) = [8%nat; 1%nat].
Proof. reflexivity. Qed.

(** A cell of the grid leads to the detail page of its book, addressed by
    the decimal numeral of the id. *)
Example click_on_emma :
  List.map Index.onclick (concat (Index.table rendered_page)) = [Some 0; Some 1] /\
  trace (snd (Index.showBookDetail 1 rendered_page (sample_world [dune; emma] None))) =
    [Navigate "detailpage.html?id=2"].
Proof. split; reflexivity. Qed.

(** Another tab renames Emma: on refocus the page takes the new books but
    keeps the grid it had drawn. *)
Example same_count_edit_is_missed :
  exists p' w',
    Index.onFocus rendered_page (sample_world [dune; emma_renamed] None) = (Return p', w') /\
    List.map Index.val (Index.books p') = [dune; emma_renamed] /\
    Index.table p' = Index.table rendered_page.
Proof. eexists _, _. repeat split. Qed.

(** A stored [totalBooks] that disagrees with the books is read all the same. *)
Example total_is_not_checked_on_read :
  fst (loadBooks (mkWorld (Some (Doc.mk (Some "Little Library") None (Some 5) (Some [dune])))
                          [] 0 None [])) = Return [dune].
Proof. reflexivity. Qed.

(** No identifier in the URL: [updateStatus] stops before any request. *)
Example updateStatus_without_id :
  Detail.updateStatus "read" (sample_world [dune] (Some "")) =
  (Return tt, mkWorld (Some (stored_library [dune])) [] 1718000000500 (Some "")
                      [Alert "No book selected"]).
Proof. reflexivity. Qed.

(** A new book is appended and the library saved with its new count. *)
Example add_a_book :
  let w' := snd (AddBook.handleAddBook
                   (AddBook.mkForm " Emma " "Austen" "" "" "" "classic, ,romance" "read")
                   (sample_world [dune] None)) in
  (Doc.totalBooks <$> file w') = Some (Some 2) /\
  (List.map title <$> (file w' ≫= Doc.books)) = Some [Some "Dune"; Some "Emma"] /\
  (List.map tags <$> (file w' ≫= Doc.books)) =
    Some [Some ["scifi"]; Some ["classic"; "romance"]] /\
  last (trace w') = Some (Navigate "index.html").
Proof. repeat split. Qed.

(** * Further properties of the code *)

(** ** Handlers and exceptions *)

Lemma try_catch_returns {A} (body : M A) (h : Error -> M A) (w : World) :
  (forall e w0, exists a w', h e w0 = (Return a, w')) ->
  exists a w', try_catch body h w = (Return a, w').
Proof.
  intros Hh. unfold try_catch. destruct (body w) as [[a|e] w1]; eauto.
Qed.

Lemma alert_returns (message : string) (w : World) :
  alert message w = (Return tt, with_events w [Alert message]).
Proof. reflexivity. Qed.

(** X1. No handler of the three pages lets an exception escape: each returns,
    whatever the world does to its requests. *)
Theorem handlers_never_throw
    (w : World) (newStatus : string) (answer : bool)
    (toLocaleDateString : Stamp -> string) (dom : Detail.Dom)
    (formData : AddBook.Form) (p : Index.Page) :
  (exists w', Detail.updateStatus newStatus w = (Return tt, w')) /\
  (exists w', Detail.deleteBook answer w = (Return tt, w')) /\
  (exists dom' w', Detail.displayBookDetails toLocaleDateString dom w = (Return dom', w')) /\
  (exists w', AddBook.handleAddBook formData w = (Return tt, w')) /\
  (exists p' w', Index.loadBooksForIndex p w = (Return p', w')) /\
  (exists p' w', Index.onDOMContentLoaded p w = (Return p', w')) /\
  (exists p' w', Index.onFocus p w = (Return p', w')).
Proof.
  assert (Hunit : forall (body : M unit) (h : Error -> M unit) w0,
             (forall e w1, exists a w', h e w1 = (Return a, w')) ->
             exists w', try_catch body h w0 = (Return tt, w')).
  { intros body h w0 Hh. destruct (try_catch_returns body h w0 Hh) as ([] & w' & H). eauto. }
  repeat apply conj.
  - unfold Detail.updateStatus, bind at 1, getBookIdFromUrl.
    destruct (Detail.present (url_id w)); [|eexists; reflexivity].
    apply Hunit. intros; eexists _, _; reflexivity.
  - unfold Detail.deleteBook, bind at 1, getBookIdFromUrl.
    destruct (Detail.present (url_id w)); [|eexists; reflexivity].
    apply Hunit. intros; eexists _, _; reflexivity.
  - unfold Detail.displayBookDetails, bind at 1, getBookIdFromUrl.
    destruct (Detail.present (url_id w)); [|eexists _, _; reflexivity].
    apply try_catch_returns. intros; eexists _, _; reflexivity.
  - unfold AddBook.handleAddBook.
    destruct (negb (Js.truthy_string (Js.trim (AddBook.title formData)))).
    + eexists; reflexivity.
    + cbv [bind emit now]. cbv beta iota.
      apply Hunit. intros; eexists _, _; reflexivity.
  - destruct (loadBooksForIndex_valid p w) as (p' & w' & H & _). eauto.
  - destruct (loadBooksForIndex_valid p w) as (p' & w' & H & _).
    unfold Index.onDOMContentLoaded, bind. rewrite H. eexists _, _; reflexivity.
  - destruct (loadBooksForIndex_valid p w) as (p' & w' & H & _).
    unfold Index.onFocus, bind. rewrite H.
    destruct (negb _); eexists _, _; reflexivity.
Qed.

(** ** The detail page without a book *)

(** X2. Without an [id] parameter, or with an empty one, the three handlers of
    the detail page send no request: each tells the user "No book
    selected", and [displayBookDetails] also leaves for the list view
    without touching the page. *)
Theorem detail_handlers_need_an_id
    (w : World) (newStatus : string) (answer : bool)
    (toLocaleDateString : Stamp -> string) (dom : Detail.Dom)
    (Hmissing : url_id w = None \/ url_id w = Some "") :
  Detail.updateStatus newStatus w =
    (Return tt, with_events w [Alert "No book selected"]) /\
  Detail.deleteBook answer w =
    (Return tt, with_events w [Alert "No book selected"]) /\
  Detail.displayBookDetails toLocaleDateString dom w =
    (Return dom, with_events w [Alert "No book selected"; Navigate "index.html"]).
Proof.
  assert (Hnone : Detail.present (url_id w) = None)
    by (destruct Hmissing as [-> | ->]; reflexivity).
  unfold Detail.updateStatus, Detail.deleteBook, Detail.displayBookDetails,
    bind, getBookIdFromUrl.
  rewrite Hnone. unfold with_events. cbn. rewrite <- app_assoc. auto.
Qed.

Lemma detail_handlers_need_an_id_witness :
  (url_id (sample_world [dune] (Some "")) = None \/
   url_id (sample_world [dune] (Some "")) = Some "") /\
  Detail.updateStatus "read" (sample_world [dune] (Some "")) =
    (Return tt, with_events (sample_world [dune] (Some "")) [Alert "No book selected"]) /\
  Detail.deleteBook true (sample_world [dune] (Some "")) =
    (Return tt, with_events (sample_world [dune] (Some "")) [Alert "No book selected"]) /\
  Detail.displayBookDetails (fun _ => "") [] (sample_world [dune] (Some "")) =
    (Return [], with_events (sample_world [dune] (Some ""))
                  [Alert "No book selected"; Navigate "index.html"]).
Proof.
  assert (Hmissing : url_id (sample_world [dune] (Some "")) = None \/
                     url_id (sample_world [dune] (Some "")) = Some "")
    by (right; reflexivity).
  split; [exact Hmissing|].
  exact (detail_handlers_need_an_id _ "read" true (fun _ => "") [] Hmissing).
Defined.

Lemma find_none_iff {A} (test : A -> bool) (l : list A) :
  (forall x, In x l -> test x = false) -> List.find test l = None.
Proof.
  induction l as [|a l IH]; intros H; simpl; [reflexivity|].
  rewrite (H a (or_introl eq_refl)). apply IH. intros x Hx. apply H. now right.
Qed.

(** X3. An identifier that no loaded book carries: [deleteBook] asks nothing
    and sends nothing, [displayBookDetails] paints nothing and leaves for
    the list view; both tell the user "Book not found". *)
Theorem unknown_id_is_reported
    (w w1 : World) (bookId : string) (loaded : list Book) (answer : bool)
    (toLocaleDateString : Stamp -> string) (dom : Detail.Dom)
    (Hid : url_id w = Some bookId) (Hpresent : bookId <> "")
    (Hload : loadBooks w = (Return loaded, w1))
    (Hunknown : forall b, In b loaded -> ~ has_id bookId b) :
  Detail.deleteBook answer w = (Return tt, with_events w1 [Alert "Book not found"]) /\
  Detail.displayBookDetails toLocaleDateString dom w =
    (Return dom, with_events w1 [Alert "Book not found"; Navigate "index.html"]) /\
  trace w1 = (trace w ++ [Fetched "GET" None])%list /\
  file w1 = file w.
Proof.
  assert (Hfind : List.find (fun b => Js.loose_eq (id b) bookId) loaded = None).
  { apply find_none_iff. intros b Hb. specialize (Hunknown b Hb). unfold has_id in Hunknown.
    now destruct (Js.loose_eq (id b) bookId). }
  destruct (loadBooks_effect _ _ _ Hload) as (Htrace & Hfile & _).
  split; [|split; [|split; [exact Htrace | exact Hfile]]].
  - unfold Detail.deleteBook. rewrite (present_start _ _ _ _ Hid Hpresent).
    rewrite (try_bind_run _ _ _ _ _ _ Hload), Hfind. reflexivity.
  - unfold Detail.displayBookDetails. rewrite (present_start _ _ _ _ Hid Hpresent).
    rewrite (try_bind_run _ _ _ _ _ _ Hload), Hfind.
    unfold with_events. cbn. rewrite <- app_assoc. reflexivity.
Qed.

Lemma unknown_id_is_reported_witness :
  url_id (sample_world [dune; emma] (Some "3")) = Some "3" /\
  "3" <> "" /\
  loadBooks (sample_world [dune; emma] (Some "3")) =
    (Return [dune; emma], fetched_world [dune; emma] (Some "3")) /\
  (forall b, In b [dune; emma] -> ~ has_id "3" b) /\
  Detail.deleteBook true (sample_world [dune; emma] (Some "3")) =
    (Return tt, with_events (fetched_world [dune; emma] (Some "3")) [Alert "Book not found"]) /\
  Detail.displayBookDetails (fun _ => "") [] (sample_world [dune; emma] (Some "3")) =
    (Return [], with_events (fetched_world [dune; emma] (Some "3"))
                  [Alert "Book not found"; Navigate "index.html"]) /\
  trace (fetched_world [dune; emma] (Some "3")) =
    (trace (sample_world [dune; emma] (Some "3")) ++ [Fetched "GET" None])%list /\
  file (fetched_world [dune; emma] (Some "3")) = file (sample_world [dune; emma] (Some "3")).
Proof.
  assert (Hid : url_id (sample_world [dune; emma] (Some "3")) = Some "3") by reflexivity.
  assert (Hpresent : "3" <> "") by discriminate.
  assert (Hload : loadBooks (sample_world [dune; emma] (Some "3")) =
                  (Return [dune; emma], fetched_world [dune; emma] (Some "3")))
    by reflexivity.
  assert (Hunknown : forall b, In b [dune; emma] -> ~ has_id "3" b).
  { intros b [<- | [<- | []]]; discriminate. }
  split; [exact Hid|]. split; [exact Hpresent|]. split; [exact Hload|].
  split; [exact Hunknown|].
  exact (unknown_id_is_reported _ _ "3" _ true (fun _ => "") [] Hid Hpresent Hload Hunknown).
Defined.

(** ** Round trips through the server *)

Lemma loadBooks_healthy (w : World) (d : Doc.t) :
  file w = Some d -> upcoming_fault w = Healthy ->
  exists w', loadBooks w = (Return (default [] (Doc.books d)), w') /\
             file w' = file w /\ url_id w' = url_id w /\
             trace w' = (trace w ++ [Fetched "GET" None])%list.
Proof.
  intros Hfile Hfault. by_exchange w; try discriminate Hfault;
    subst stored; destruct d as [? ? ? [bs|]]; eexists; repeat split.
Qed.

(** X4. What [saveBooks] reported as saved is what the next healthy
    [loadBooks] returns, book for book. *)
Theorem saved_books_load_back (w w1 : World) (books : list Book)
    (Hsave : saveBooks books w = (Return true, w1))
    (Hhealthy : upcoming_fault w1 = Healthy) :
  exists w2, loadBooks w1 = (Return books, w2) /\ file w2 = file w1.
Proof.
  destruct (saveBooks_effect w books) as (accepted & w' & d & Hs & _ & Hd & Hfile & _).
  rewrite Hsave in Hs. inversion Hs; subst accepted w'. clear Hs.
  destruct (loadBooks_healthy w1 d Hfile Hhealthy) as (w2 & Hload & Hfile2 & _).
  exists w2. rewrite Hd in Hload. cbn in Hload. auto.
Qed.

Lemma saved_books_load_back_witness :
  saveBooks [dune; emma] (sample_world [] None) =
    (Return true, snd (saveBooks [dune; emma] (sample_world [] None))) /\
  upcoming_fault (snd (saveBooks [dune; emma] (sample_world [] None))) = Healthy /\
  exists w2,
    loadBooks (snd (saveBooks [dune; emma] (sample_world [] None))) =
      (Return [dune; emma], w2) /\
    file w2 = file (snd (saveBooks [dune; emma] (sample_world [] None))).
Proof.
  assert (Hsave : saveBooks [dune; emma] (sample_world [] None) =
                  (Return true, snd (saveBooks [dune; emma] (sample_world [] None))))
    by reflexivity.
  assert (Hhealthy : upcoming_fault (snd (saveBooks [dune; emma] (sample_world [] None))) =
                     Healthy) by reflexivity.
  split; [exact Hsave|]. split; [exact Hhealthy|].
  exact (saved_books_load_back _ _ _ Hsave Hhealthy).
Defined.

(** X5. Saving what was just loaded keeps the stored books as they were, in
    their order, and rewrites the rest of the document: the library name
    and a [totalBooks] that counts them, whatever the stored document said. *)
Theorem reload_and_save_keeps_the_books
    (w w1 w2 : World) (d : Doc.t) (stored loaded : list Book)
    (Hfile : file w = Some d) (Hbooks : Doc.books d = Some stored)
    (Hhealthy : upcoming_fault w = Healthy)
    (Hload : loadBooks w = (Return loaded, w1))
    (Hsave : saveBooks loaded w1 = (Return true, w2)) :
  loaded = stored /\
  exists d', file w2 = Some d' /\
             Doc.books d' = Some stored /\
             Doc.totalBooks d' = Some (Z.of_nat (length stored)) /\
             Doc.library d' = Some "Little Library" /\
             Doc.lastUpdated d' = Some (ISO (clock w1)).
Proof.
  destruct (loadBooks_healthy w d Hfile Hhealthy) as (w' & Hl & _).
  rewrite Hload, Hbooks in Hl. inversion Hl; subst loaded w'. clear Hl.
  split; [reflexivity|].
  destruct (saveBooks_effect w1 stored) as (accepted & w' & d' & Hs & _ & Hd & Hf & _).
  rewrite Hsave in Hs. inversion Hs; subst accepted w'. clear Hs.
  exists d'. split; [exact Hf|]. now rewrite Hd.
Qed.

Lemma reload_and_save_keeps_the_books_witness :
  file (miscounted_world []) = Some miscounted /\
  Doc.books miscounted = Some [dune; emma] /\
  upcoming_fault (miscounted_world []) = Healthy /\
  loadBooks (miscounted_world []) =
    (Return [dune; emma], miscounted_world [Fetched "GET" None]) /\
  saveBooks [dune; emma] (miscounted_world [Fetched "GET" None]) =
    (Return true, snd (saveBooks [dune; emma] (miscounted_world [Fetched "GET" None]))) /\
  [dune; emma] = [dune; emma] /\
  exists d',
    file (snd (saveBooks [dune; emma] (miscounted_world [Fetched "GET" None]))) = Some d' /\
    Doc.books d' = Some [dune; emma] /\
    Doc.totalBooks d' = Some (Z.of_nat (length [dune; emma])) /\
    Doc.library d' = Some "Little Library" /\
    Doc.lastUpdated d' = Some (ISO (clock (miscounted_world [Fetched "GET" None]))).
Proof.
  split; [reflexivity|]. split; [reflexivity|]. split; [reflexivity|].
  split; [reflexivity|]. split; [reflexivity|].
  exact (reload_and_save_keeps_the_books
           (miscounted_world []) (miscounted_world [Fetched "GET" None])
           (snd (saveBooks [dune; emma] (miscounted_world [Fetched "GET" None])))
           miscounted [dune; emma] [dune; emma]
           eq_refl eq_refl eq_refl eq_refl eq_refl).
Defined.

(** ** Trimming and splitting *)

Lemma trimStart_head (s : string) :
  Js.trimStart s = "" \/
  exists c r, Js.trimStart s = String c r /\ Js.is_space c = false.
Proof.
  induction s as [|c s IH]; simpl; [now left|].
  destruct (Js.is_space c) eqn:Hc; [exact IH | right; eauto].
Qed.

Lemma trimEnd_head (c : ascii) (r : string) :
  Js.is_space c = false -> exists r', Js.trimEnd (String c r) = String c r'.
Proof.
  intros Hc. simpl. rewrite Hc. destruct (Js.trimEnd r); eauto.
Qed.

Lemma trimEnd_idempotent (s : string) : Js.trimEnd (Js.trimEnd s) = Js.trimEnd s.
Proof.
  induction s as [|c s IH]; [reflexivity|].
  simpl. destruct (Js.trimEnd s) as [|a t] eqn:Ht.
  - destruct (Js.is_space c) eqn:Hc; [reflexivity|]. simpl. now rewrite Hc.
  - change (Js.trimEnd (String c (String a t))) with
      (match Js.trimEnd (String a t) with
       | EmptyString => if Js.is_space c then EmptyString else String c EmptyString
       | String x y => String c (String x y)
       end).
    now rewrite IH.
Qed.

Lemma trim_idempotent (s : string) : Js.trim (Js.trim s) = Js.trim s.
Proof.
  unfold Js.trim at 2 3. destruct (trimStart_head s) as [-> | (c & r & -> & Hc)]; [reflexivity|].
  destruct (trimEnd_head c r Hc) as [r' Hr]. unfold Js.trim.
  rewrite Hr. cbn [Js.trimStart]. rewrite Hc, <- Hr. apply trimEnd_idempotent.
Qed.

Lemma has_char_trimStart (x : ascii) (s : string) :
  has_char x (Js.trimStart s) = true -> has_char x s = true.
Proof.
  induction s as [|c s IH]; simpl; [discriminate|].
  destruct (Js.is_space c); [|now intros].
  intros H. rewrite (IH H). apply orb_true_r.
Qed.

Lemma has_char_trimEnd (x : ascii) (s : string) :
  has_char x (Js.trimEnd s) = true -> has_char x s = true.
Proof.
  induction s as [|c s IH]; simpl; [discriminate|].
  destruct (Js.trimEnd s) as [|a t].
  - destruct (Js.is_space c); simpl; [discriminate|].
    rewrite orb_false_r. now intros ->.
  - cbn [has_char]. intros H. apply orb_true_iff in H as [-> | H]; [reflexivity|].
    rewrite (IH H). apply orb_true_r.
Qed.

Lemma has_char_trim (x : ascii) (s : string) :
  has_char x s = false -> has_char x (Js.trim s) = false.
Proof.
  intros H. destruct (has_char x (Js.trim s)) eqn:Ht; [|reflexivity].
  unfold Js.trim in Ht. apply has_char_trimEnd, has_char_trimStart in Ht. congruence.
Qed.

Lemma split_comma_pieces (s piece : string) :
  In piece (Js.split_comma s) -> has_char "," piece = false.
Proof.
  revert piece. induction s as [|c s IH]; intros piece; simpl.
  - intros [<- | []]. reflexivity.
  - destruct (Ascii.eqb_spec c ",") as [-> | Hc].
    + intros [<- | Hin]; [reflexivity | now apply IH].
    + destruct (Js.split_comma s) as [|first rest].
      * intros [<- | []]. simpl. apply Ascii.eqb_neq in Hc. now rewrite Hc.
      * intros [<- | Hin].
        -- simpl. apply Ascii.eqb_neq in Hc. rewrite Hc. apply IH. now left.
        -- apply IH. now right.
Qed.

(** ** The create form *)

(** X6. The tags [handleAddBook] stores are the pieces between the commas of
    the tags field, trimmed, in their order, without the blank ones: each
    stored tag is non-empty, has nothing left to trim and holds no comma,
    and no piece with something in it is lost. *)
Theorem created_tags_are_clean (formData : AddBook.Form) (t : Z) :
  exists ts,
    tags (new_book formData t) = Some ts /\
    Forall clean_tag ts /\
    ts `sublist_of` List.map Js.trim (Js.split_comma (AddBook.tags formData)) /\
    (forall piece, In piece (Js.split_comma (AddBook.tags formData)) ->
                   Js.trim piece <> "" -> In (Js.trim piece) ts).
Proof.
  eexists. split; [reflexivity|]. split; [|split].
  - apply Forall_forall. intros tag Htag.
    apply list_elem_of_In, filter_In in Htag as [Hin Hne].
    apply in_map_iff in Hin as (piece & <- & Hpiece).
    split; [now apply truthy_string_true|]. split; [apply trim_idempotent|].
    apply has_char_trim. now apply split_comma_pieces in Hpiece.
  - apply filter_sublist_of.
  - intros piece Hpiece Hne. apply filter_In. split.
    + now apply in_map.
    + now apply truthy_string_true.
Qed.

Lemma handleAddBook_run (w w1 : World) (formData : AddBook.Form) (existing : list Book) :
  Js.trim (AddBook.title formData) <> "" ->
  loadBooks (with_events w [PreventDefault]) = (Return existing, w1) ->
  exists (accepted : bool) (w2 : World),
    saveBooks (existing ++ [new_book formData (clock w)]) w1 = (Return accepted, w2) /\
    AddBook.handleAddBook formData w =
    (Return tt,
     with_events w2
       (if accepted
        then [Alert (Index.dq +:+ Js.trim (AddBook.title formData) +:+ Index.dq +:+
                     " has been added to your library!");
              FormReset; Navigate "index.html"]
        else [Alert "Error saving book. Please try again."])).
Proof.
  intros Htitle Hload. apply truthy_string_true in Htitle.
  destruct (saveBooks_effect w1 (existing ++ [new_book formData (clock w)]))
    as (accepted & w2 & d & Hsave & _).
  exists accepted, w2. split; [exact Hsave|].
  unfold AddBook.handleAddBook. rewrite Htitle. cbn [negb].
  unfold bind at 1, emit at 1. unfold bind at 1, now at 1. unfold bind at 1, now at 1.
  cbn [clock]. fold (with_events w [PreventDefault]).
  rewrite (try_bind_run _ _ _ _ _ _ Hload).
  fold (new_book formData (clock w)).
  unfold try_catch, bind. rewrite Hsave.
  destruct accepted; unfold with_events; cbn; rewrite <- ?app_assoc; reflexivity.
Qed.

(** X7. With a title, [handleAddBook] loads the collection and sends it with
    the new book appended and counted, the id and the date of the new book
    being the time of the submission. An accepted save becomes the stored
    document, clears the form and leads to the list view; a refused or
    failed one leaves the stored document and the form, with an alert. *)
Theorem handleAddBook_appends_the_book (w : World) (formData : AddBook.Form)
    (Htitle : Js.trim (AddBook.title formData) <> "") :
  exists (existing : list Book) (d : Doc.t) (accepted : bool) (w1 w2 : World),
    loadBooks (with_events w [PreventDefault]) = (Return existing, w1) /\
    AddBook.handleAddBook formData w = (Return tt, w2) /\
    Doc.books d = Some (existing ++ [new_book formData (clock w)])%list /\
    Doc.totalBooks d = Some (Z.of_nat (length existing) + 1) /\
    file w2 = (if accepted then Some d else file w) /\
    trace w2 =
      (trace w ++
       [PreventDefault; Fetched "GET" None; Fetched "POST" (Some d)] ++
       (if accepted
        then [Alert (Index.dq +:+ Js.trim (AddBook.title formData) +:+ Index.dq +:+
                     " has been added to your library!");
              FormReset; Navigate "index.html"]
        else [Alert "Error saving book. Please try again."]))%list.
Proof.
  destruct (loadBooks_returns (with_events w [PreventDefault])) as (existing & w1 & Hload).
  destruct (loadBooks_effect _ _ _ Hload) as (Htrace1 & Hfile1 & _).
  destruct (handleAddBook_run w w1 formData existing Htitle Hload)
    as (accepted & w2 & Hsave & Hrun).
  destruct (saveBooks_effect w1 (existing ++ [new_book formData (clock w)]))
    as (accepted' & w2' & d & Hsave' & Htrace2 & Hd & Hfile2 & _).
  rewrite Hsave in Hsave'. inversion Hsave'; subst accepted' w2'. clear Hsave'.
  exists existing, d, accepted, w1. eexists.
  split; [exact Hload|]. split; [exact Hrun|].
  split; [now rewrite Hd|]. split.
  { rewrite Hd. cbn. rewrite length_app. cbn. do 2 f_equal. lia. }
  unfold with_events. cbn [file trace]. rewrite Hfile2, Hfile1, Htrace2, Htrace1.
  cbn [file trace with_events]. split; [reflexivity|].
  rewrite <- !app_assoc. reflexivity.
Qed.

Lemma handleAddBook_appends_the_book_witness :
  Js.trim (AddBook.title (AddBook.mkForm " Emma " "Austen" "" "" "" "classic, ,romance" "read"))
    <> "" /\
  exists (existing : list Book) (d : Doc.t) (accepted : bool) (w1 w2 : World),
    loadBooks (with_events (sample_world [dune] None) [PreventDefault]) =
      (Return existing, w1) /\
    AddBook.handleAddBook
      (AddBook.mkForm " Emma " "Austen" "" "" "" "classic, ,romance" "read")
      (sample_world [dune] None) = (Return tt, w2) /\
    Doc.books d =
      Some (existing ++
            [new_book (AddBook.mkForm " Emma " "Austen" "" "" "" "classic, ,romance" "read")
                      (clock (sample_world [dune] None))])%list /\
    Doc.totalBooks d = Some (Z.of_nat (length existing) + 1) /\
    file w2 = (if accepted then Some d else file (sample_world [dune] None)) /\
    trace w2 =
      (trace (sample_world [dune] None) ++
       [PreventDefault; Fetched "GET" None; Fetched "POST" (Some d)] ++
       (if accepted
        then [Alert (Index.dq +:+
                     Js.trim (AddBook.title
                                (AddBook.mkForm " Emma " "Austen" "" "" ""
                                                "classic, ,romance" "read")) +:+
                     Index.dq +:+ " has been added to your library!");
              FormReset; Navigate "index.html"]
        else [Alert "Error saving book. Please try again."]))%list.
Proof.
  assert (Htitle : Js.trim (AddBook.title
                              (AddBook.mkForm " Emma " "Austen" "" "" ""
                                              "classic, ,romance" "read")) <> "")
    by discriminate.
  split; [exact Htitle|].
  exact (handleAddBook_appends_the_book (sample_world [dune] None) _ Htitle).
Defined.

Lemma new_book_is_valid (formData : AddBook.Form) (t : Z) (n : nat) :
  Js.trim (AddBook.title formData) <> "" ->
  Index.isValid (Index.mkObj n (new_book formData t)) = true.
Proof.
  intros H. unfold Index.isValid. cbn. rewrite trim_idempotent.
  apply truthy_string_true in H. now rewrite H.
Qed.

Lemma objects_snoc (l : list Book) (b : Book) :
  Index.objects (l ++ [b]) = (Index.objects l ++ [Index.mkObj (length l) b])%list.
Proof.
  unfold Index.objects. rewrite imap_app. cbn. do 3 f_equal. lia.
Qed.

(** X8. Once [handleAddBook] has moved on to the list view, the list page that
    loads over a healthy exchange holds the new book as its last book and
    draws it as the last cell of the grid. *)
Theorem added_book_is_on_the_list
    (w w2 : World) (formData : AddBook.Form) (p : Index.Page)
    (Htitle : Js.trim (AddBook.title formData) <> "")
    (Hrun : AddBook.handleAddBook formData w = (Return tt, w2))
    (Hdone : last (trace w2) = Some (Navigate "index.html"))
    (Hhealthy : upcoming_fault w2 = Healthy) :
  exists (p' : Index.Page) (w3 : World) (shelf : list Index.Obj) (added : Index.Obj),
    Index.onDOMContentLoaded p w2 = (Return p', w3) /\
    Index.books p' = (shelf ++ [added])%list /\
    Index.val added = new_book formData (clock w) /\
    last (concat (Index.table p')) =
      Some (Index.book_cell (Index.books p') (Some added)).
Proof.
  destruct (loadBooks_returns (with_events w [PreventDefault])) as (existing & w1 & Hload).
  destruct (handleAddBook_run w w1 formData existing Htitle Hload)
    as (accepted & w2' & Hsave & Hrun').
  rewrite Hrun in Hrun'. injection Hrun' as Hw2.
  destruct (saveBooks_effect w1 (existing ++ [new_book formData (clock w)]))
    as (accepted' & w2'' & d & Hsave' & _ & Hd & Hfile2 & _).
  rewrite Hsave in Hsave'. inversion Hsave'; subst accepted' w2''. clear Hsave'.
  destruct accepted.
  2:{ rewrite Hw2 in Hdone. unfold with_events in Hdone. cbn [trace] in Hdone.
      rewrite last_snoc in Hdone. discriminate Hdone. }
  assert (Hfile : file w2 = Some d) by (rewrite Hw2; exact Hfile2).
  destruct (loadBooks_healthy w2 d Hfile Hhealthy) as (w3 & Hload2 & _).
  rewrite Hd in Hload2.
  change (loadBooks w2 = (Return (existing ++ [new_book formData (clock w)])%list, w3))
    in Hload2.
  pose proof (loadBooksForIndex_run p w2 w3 _ Hload2) as Hindex.
  rewrite objects_snoc, List.filter_app in Hindex. cbn [List.filter] in Hindex.
  rewrite (new_book_is_valid formData (clock w) (length existing) Htitle) in Hindex.
  set (shelf := List.filter Index.isValid (Index.objects existing)) in *.
  set (added := Index.mkObj (length existing) (new_book formData (clock w))) in *.
  exists (Index.updateDisplay (Index.set_books (shelf ++ [added]) p)), w3, shelf, added.
  split; [unfold Index.onDOMContentLoaded, bind; now rewrite Hindex|].
  split; [now rewrite updateDisplay_books|]. split; [reflexivity|].
  rewrite updateDisplay_table, updateDisplay_books. cbn [Index.books Index.set_books].
  rewrite updateBookshelf_cells by (destruct shelf; discriminate).
  unfold cells_of. rewrite List.map_app. cbn [List.map Index.books Index.set_books].
  apply last_snoc.
Qed.

Lemma added_book_is_on_the_list_witness :
  Js.trim (AddBook.title (AddBook.mkForm " Emma " "Austen" "" "" "" "classic" "read")) <> "" /\
  AddBook.handleAddBook (AddBook.mkForm " Emma " "Austen" "" "" "" "classic" "read")
                        (sample_world [dune] None) =
    (Return tt,
     snd (AddBook.handleAddBook (AddBook.mkForm " Emma " "Austen" "" "" "" "classic" "read")
                                (sample_world [dune] None))) /\
  last (trace (snd (AddBook.handleAddBook
                      (AddBook.mkForm " Emma " "Austen" "" "" "" "classic" "read")
                      (sample_world [dune] None)))) = Some (Navigate "index.html") /\
  upcoming_fault (snd (AddBook.handleAddBook
                         (AddBook.mkForm " Emma " "Austen" "" "" "" "classic" "read")
                         (sample_world [dune] None))) = Healthy /\
  exists (p' : Index.Page) (w3 : World) (shelf : list Index.Obj) (added : Index.Obj),
    Index.onDOMContentLoaded blank_page
      (snd (AddBook.handleAddBook (AddBook.mkForm " Emma " "Austen" "" "" "" "classic" "read")
                                  (sample_world [dune] None))) = (Return p', w3) /\
    Index.books p' = (shelf ++ [added])%list /\
    Index.val added =
      new_book (AddBook.mkForm " Emma " "Austen" "" "" "" "classic" "read")
               (clock (sample_world [dune] None)) /\
    last (concat (Index.table p')) =
      Some (Index.book_cell (Index.books p') (Some added)).
Proof.
  assert (Htitle : Js.trim (AddBook.title
                              (AddBook.mkForm " Emma " "Austen" "" "" "" "classic" "read"))
                   <> "") by discriminate.
  split; [exact Htitle|]. split; [reflexivity|]. split; [reflexivity|].
  split; [reflexivity|].
  exact (added_book_is_on_the_list (sample_world [dune] None) _ _ blank_page
           Htitle eq_refl eq_refl eq_refl).
Defined.

(** ** The list page: objects, clicks and the heading *)

Lemma imap_refs (l : list Book) (n : nat) :
  List.map Index.ref (imap (fun i => Index.mkObj (n + i)) l) = seq n (length l).
Proof.
  revert n. induction l as [|x l IH]; intros n; [reflexivity|].
  rewrite imap_cons. cbn [List.map length seq Index.ref]. f_equal; [lia|].
  rewrite <- IH. f_equal. apply imap_ext. intros i y _. cbn. f_equal. lia.
Qed.

Lemma objects_refs (l : list Book) :
  List.map Index.ref (Index.objects l) = seq 0 (length l).
Proof. rewrite <- imap_refs. reflexivity. Qed.

Lemma filter_distinct_refs (f : Index.Obj -> bool) (bs : list Index.Obj) :
  distinct_refs bs -> distinct_refs (List.filter f bs).
Proof.
  unfold distinct_refs. intros H.
  apply (sublist_NoDup _ (List.map Index.ref bs)); [exact H|].
  change (List.map Index.ref) with (fmap (M:=list) Index.ref).
  apply fmap_sublist, filter_sublist_of.
Qed.

(** X9. The books of the list page after any load: each with a title that is
    not blank, no object twice; the page's other handlers keep its books. *)
Theorem list_page_keeps_valid_distinct_books (p : Index.Page) (w : World) (query : string) :
  (exists p' w',
     Index.loadBooksForIndex p w = (Return p', w') /\
     valid_books (Index.books p') /\ distinct_refs (Index.books p')) /\
  (exists p' w',
     Index.onDOMContentLoaded p w = (Return p', w') /\
     valid_books (Index.books p') /\ distinct_refs (Index.books p')) /\
  (exists p' w',
     Index.onFocus p w = (Return p', w') /\
     valid_books (Index.books p') /\ distinct_refs (Index.books p')) /\
  (forall p', Index.searchBooks query p = Return p' -> Index.books p' = Index.books p) /\
  Index.books (Index.updateDisplay p) = Index.books p.
Proof.
  destruct (loadBooks_returns w) as (loaded & w1 & Hload).
  pose proof (loadBooksForIndex_run p w w1 loaded Hload) as Hrun.
  set (p1 := Index.set_books (List.filter Index.isValid (Index.objects loaded)) p) in *.
  assert (Hvalid : valid_books (Index.books p1)).
  { apply Forall_forall. intros b Hb. apply list_elem_of_In, filter_In in Hb. tauto. }
  assert (Hdistinct : distinct_refs (Index.books p1)).
  { apply filter_distinct_refs. unfold distinct_refs. rewrite objects_refs. apply NoDup_seq. }
  split; [now exists p1, w1|]. split; [|split; [|split]].
  - exists (Index.updateDisplay p1), w1.
    split; [unfold Index.onDOMContentLoaded, bind; now rewrite Hrun|].
    now rewrite updateDisplay_books.
  - unfold Index.onFocus, bind. rewrite Hrun.
    destruct (negb _); eexists _, _; (split; [reflexivity|]);
      rewrite ?updateDisplay_books; auto.
  - intros p'. unfold Index.searchBooks.
    destruct (negb (Js.truthy_string (Js.trim query))).
    + intros [= <-]. apply updateDisplay_books.
    + destruct (Index.filter_with _ _); intros [= <-]. apply updateBookshelf_books.
  - apply updateDisplay_books.
Qed.

Lemma indexOf_from_position (bs : list Index.Obj) (b : Index.Obj) (i : nat) (k : Z) :
  distinct_refs bs -> bs !! i = Some b -> Index.indexOf_from bs b k = k + Z.of_nat i.
Proof.
  revert i k. induction bs as [|a bs IH]; intros i k Hd Hat; [discriminate|].
  unfold distinct_refs in Hd. cbn [List.map] in Hd. apply NoDup_cons in Hd as [Hfresh Hd].
  destruct i as [|i]; cbn in Hat |- *.
  - injection Hat as ->. rewrite Nat.eqb_refl. lia.
  - destruct (Nat.eqb_spec (Index.ref a) (Index.ref b)) as [Heq | _].
    + exfalso. apply Hfresh. rewrite Heq. apply list_elem_of_In, in_map.
      apply list_elem_of_In. eapply list_elem_of_lookup_2. exact Hat.
    + rewrite (IH i (k + 1) Hd Hat). lia.
Qed.

(** X10. On a page whose objects are distinct, the cell of a titled book
    remembers the book's own position among the page's books, whatever
    list it is drawn in, and a click on it leads to the detail page of that
    book's id; a book whose id is missing, zero or empty leads nowhere. *)
Theorem cell_click_opens_its_book
    (p : Index.Page) (w : World) (b : Index.Obj) (i : nat) (t : string)
    (Hdistinct : distinct_refs (Index.books p))
    (Hat : Index.books p !! i = Some b)
    (Htitle : title (Index.val b) = Some t) (Hfilled : t <> "") :
  Index.onclick (Index.book_cell (Index.books p) (Some b)) = Some (Z.of_nat i) /\
  Index.showBookDetail (Z.of_nat i) p w =
    (Return tt,
     if Js.truthy (id (Index.val b))
     then with_events w [Navigate ("detailpage.html?id=" +:+ Js.to_string (id (Index.val b)))]
     else w).
Proof.
  split.
  - unfold Index.book_cell. rewrite Htitle.
    apply truthy_string_true in Hfilled. rewrite Hfilled. cbn [Index.onclick].
    unfold Index.indexOf. now rewrite (indexOf_from_position _ _ i 0 Hdistinct Hat).
  - unfold Index.showBookDetail, Index.at_index.
    destruct (Z.ltb_spec (Z.of_nat i) 0) as [Hneg | _]; [lia|]. rewrite Nat2Z.id, Hat.
    destruct (Js.truthy (id (Index.val b))); reflexivity.
Qed.

Lemma cell_click_opens_its_book_witness :
  distinct_refs (Index.books sample_page) /\
  Index.books sample_page !! 1%nat = Some (Index.mkObj 1 emma) /\
  title (Index.val (Index.mkObj 1 emma)) = Some "Emma" /\
  "Emma" <> "" /\
  Index.onclick (Index.book_cell (Index.books sample_page) (Some (Index.mkObj 1 emma))) =
    Some (Z.of_nat 1) /\
  Index.showBookDetail (Z.of_nat 1) sample_page (sample_world [dune; emma] None) =
    (Return tt,
     if Js.truthy (id (Index.val (Index.mkObj 1 emma)))
     then with_events (sample_world [dune; emma] None)
            [Navigate ("detailpage.html?id=" +:+
                       Js.to_string (id (Index.val (Index.mkObj 1 emma))))]
     else sample_world [dune; emma] None).
Proof.
  assert (Hdistinct : distinct_refs (Index.books sample_page)).
  { unfold distinct_refs. cbn. apply (NoDup_seq 0 2). }
  assert (Hfilled : "Emma" <> "") by discriminate.
  split; [exact Hdistinct|]. split; [reflexivity|]. split; [reflexivity|].
  split; [exact Hfilled|].
  exact (cell_click_opens_its_book sample_page (sample_world [dune; emma] None)
           (Index.mkObj 1 emma) 1 "Emma" Hdistinct eq_refl eq_refl Hfilled).
Defined.

(** X11. [showBookDetail] never throws and at most navigates. It goes nowhere,
    and changes nothing, for a position outside the page's books and for a
    book whose id is missing, zero or the empty string; any navigation it
    makes is to the detail page of the book at that position. *)
Theorem showBookDetail_opens_only_identified_books (p : Index.Page) (w : World) (k : Z) :
  (k < 0 \/ Z.of_nat (length (Index.books p)) <= k ->
   Index.showBookDetail k p w = (Return tt, w)) /\
  (forall b, 0 <= k -> Index.books p !! Z.to_nat k = Some b ->
             id (Index.val b) = Js.Undefined \/ id (Index.val b) = Js.Number 0 \/
             id (Index.val b) = Js.Str "" ->
             Index.showBookDetail k p w = (Return tt, w)) /\
  (forall w', Index.showBookDetail k p w = (Return tt, w') -> w' <> w ->
              exists b, 0 <= k /\ Index.books p !! Z.to_nat k = Some b /\
                        Js.truthy (id (Index.val b)) = true /\
                        w' = with_events w
                               [Navigate ("detailpage.html?id=" +:+
                                          Js.to_string (id (Index.val b)))]).
Proof.
  unfold Index.showBookDetail, Index.at_index.
  destruct (Z.ltb_spec k 0) as [Hneg | Hpos].
  - split; [reflexivity|]. split; [intros b Hk; lia|].
    intros w' [= <-] Hne. contradiction.
  - split; [|split].
    + intros [Hneg | Hbig]; [lia|]. rewrite lookup_ge_None_2 by lia. reflexivity.
    + intros b _ Hat [Hid | [Hid | Hid]]; rewrite Hat, Hid; reflexivity.
    + intros w' Hrun Hne. destruct (Index.books p !! Z.to_nat k) as [b|] eqn:Hat.
      * destruct (Js.truthy (id (Index.val b))) eqn:Hid.
        -- injection Hrun as <-. exists b. auto.
        -- injection Hrun as <-. contradiction.
      * injection Hrun as <-. contradiction.
Qed.

(** X12. [updateDisplay] announces as many books as it draws cells: the heading
    counts the page's books, the grid holds one cell for each, and the
    empty-library notice (where the page has one) shows exactly when there
    is none, the grid then being the placeholder row. *)
Theorem updateDisplay_counts_what_it_draws (p : Index.Page) :
  let N := length (Index.books p) in
  let p' := Index.updateDisplay p in
  Index.heading p' =
    "Your Library (" +:+ Js.number_to_string (Z.of_nat N) +:+ " books)" /\
  Index.emptyTitle p' =
    option_map (fun _ => if (N =? 0)%nat then "block" else "none") (Index.emptyTitle p) /\
  Index.emptyMessage p' =
    option_map (fun _ => if (N =? 0)%nat then "block" else "none") (Index.emptyMessage p) /\
  (N = 0%nat -> Index.table p' = [placeholder_row]) /\
  (N <> 0%nat -> length (concat (Index.table p')) = N /\
                 concat (Index.table p') = cells_of (Index.books p) (Index.books p)).
Proof.
  intros N p'. subst p'.
  split; [|split; [|split; [|split]]].
  - unfold Index.updateDisplay, Index.updateBookshelf. now destruct (_ =? _)%nat.
  - unfold Index.updateDisplay, Index.updateBookshelf. now destruct (_ =? _)%nat.
  - unfold Index.updateDisplay, Index.updateBookshelf. now destruct (_ =? _)%nat.
  - intros Hzero. rewrite updateDisplay_table. unfold Index.updateBookshelf.
    fold N. rewrite Hzero. reflexivity.
  - intros Hpos. rewrite updateDisplay_table.
    assert (Hne : Index.books p <> []) by (intros H; apply Hpos; subst N; now rewrite H).
    rewrite (updateBookshelf_cells p _ Hne). split; [|reflexivity].
    unfold cells_of. now rewrite List.length_map.
Qed.

Lemma updateDisplay_ext (q q' : Index.Page) :
  Index.books q = Index.books q' ->
  Index.emptyTitle q = Index.emptyTitle q' ->
  Index.emptyMessage q = Index.emptyMessage q' ->
  Index.updateDisplay q = Index.updateDisplay q'.
Proof.
  intros Hb Ht Hm. unfold Index.updateDisplay, Index.updateBookshelf, Index.set_table.
  cbn [Index.books Index.heading Index.emptyTitle Index.emptyMessage Index.table].
  rewrite Hb, Ht, Hm. reflexivity.
Qed.

Lemma updateDisplay_after_updateBookshelf (shown : list Index.Obj) (p : Index.Page) :
  Index.updateDisplay (Index.updateBookshelf shown p) = Index.updateDisplay p.
Proof.
  apply updateDisplay_ext; unfold Index.updateBookshelf;
    destruct (length shown =? 0)%nat; reflexivity.
Qed.

Lemma updateDisplay_idempotent (p : Index.Page) :
  Index.updateDisplay (Index.updateDisplay p) = Index.updateDisplay p.
Proof.
  unfold Index.updateDisplay at 2.
  rewrite updateDisplay_after_updateBookshelf.
  unfold Index.updateDisplay, Index.updateBookshelf, Index.set_table.
  cbn [Index.books Index.heading Index.emptyTitle Index.emptyMessage Index.table].
  destruct (Index.emptyTitle p), (Index.emptyMessage p); reflexivity.
Qed.

(** X13. Emptying the search box after any search brings back the page as
    [updateDisplay] draws it: the whole shelf, whatever had been searched. *)
Theorem clearing_the_search_restores_the_shelf
    (p p1 : Index.Page) (query blank : string)
    (Hsearch : Index.searchBooks query p = Return p1)
    (Hblank : Js.trim blank = "") :
  Index.searchBooks blank p1 = Return (Index.updateDisplay p).
Proof.
  assert (Hclear : Index.searchBooks blank p1 = Return (Index.updateDisplay p1)).
  { unfold Index.searchBooks. now rewrite Hblank. }
  rewrite Hclear. f_equal. unfold Index.searchBooks in Hsearch.
  destruct (negb (Js.truthy_string (Js.trim query))).
  - injection Hsearch as <-. apply updateDisplay_idempotent.
  - destruct (Index.filter_with _ _); [|discriminate].
    injection Hsearch as <-. apply updateDisplay_after_updateBookshelf.
Qed.

Lemma clearing_the_search_restores_the_shelf_witness :
  Index.searchBooks "austen" sample_page =
    Return (Index.updateBookshelf [Index.mkObj 1 emma] sample_page) /\
  Js.trim "  " = "" /\
  Index.searchBooks "  " (Index.updateBookshelf [Index.mkObj 1 emma] sample_page) =
    Return (Index.updateDisplay sample_page).
Proof.
  split; [reflexivity|]. split; [reflexivity|].
  exact (clearing_the_search_restores_the_shelf sample_page _ "austen" "  "
           eq_refl eq_refl).
Defined.

(** X14. A fetch that fails, a reply that does not parse and a server without
    a readable file all look the same on the list page, namely like an
    empty library: no book, "0 books", the placeholder row, the
    empty-library notice, and no alert. *)
Theorem failed_fetch_looks_like_an_empty_library (p : Index.Page) (w : World)
    (Hnothing : upcoming_fault w <> Healthy \/ file w = None) :
  exists w',
    Index.onDOMContentLoaded p w =
      (Return (Index.updateDisplay (Index.set_books [] p)), w') /\
    Index.books (Index.updateDisplay (Index.set_books [] p)) = [] /\
    Index.heading (Index.updateDisplay (Index.set_books [] p)) = "Your Library (0 books)" /\
    Index.table (Index.updateDisplay (Index.set_books [] p)) = [placeholder_row] /\
    Index.emptyTitle (Index.updateDisplay (Index.set_books [] p)) =
      option_map (fun _ => "block") (Index.emptyTitle p) /\
    trace w' = (trace w ++ [Fetched "GET" None])%list.
Proof.
  assert (Hload : exists w', loadBooks w = (Return [], w')).
  { by_exchange w; destruct Hnothing as [H | H]; try congruence; try (eexists; reflexivity);
      cbn in H; subst stored; eexists; reflexivity. }
  destruct Hload as (w' & Hload).
  destruct (loadBooks_effect _ _ _ Hload) as (Htrace & _).
  exists w'. split.
  { unfold Index.onDOMContentLoaded, bind.
    now rewrite (loadBooksForIndex_run p w w' [] Hload). }
  repeat split; auto.
Qed.

Lemma failed_fetch_looks_like_an_empty_library_witness :
  (upcoming_fault (mkWorld (Some (stored_library [dune])) [mkExchange Unreachable 30] 0 None [])
     <> Healthy \/
   file (mkWorld (Some (stored_library [dune])) [mkExchange Unreachable 30] 0 None []) = None) /\
  exists w',
    Index.onDOMContentLoaded blank_page
      (mkWorld (Some (stored_library [dune])) [mkExchange Unreachable 30] 0 None []) =
      (Return (Index.updateDisplay (Index.set_books [] blank_page)), w') /\
    Index.books (Index.updateDisplay (Index.set_books [] blank_page)) = [] /\
    Index.heading (Index.updateDisplay (Index.set_books [] blank_page)) =
      "Your Library (0 books)" /\
    Index.table (Index.updateDisplay (Index.set_books [] blank_page)) = [placeholder_row] /\
    Index.emptyTitle (Index.updateDisplay (Index.set_books [] blank_page)) =
      option_map (fun _ => "block") (Index.emptyTitle blank_page) /\
    trace w' =
      (trace (mkWorld (Some (stored_library [dune])) [mkExchange Unreachable 30] 0 None [])
       ++ [Fetched "GET" None])%list.
Proof.
  assert (Hnothing :
            upcoming_fault (mkWorld (Some (stored_library [dune]))
                                    [mkExchange Unreachable 30] 0 None []) <> Healthy \/
            file (mkWorld (Some (stored_library [dune]))
                          [mkExchange Unreachable 30] 0 None []) = None)
    by (left; discriminate).
  split; [exact Hnothing|].
  exact (failed_fetch_looks_like_an_empty_library blank_page _ Hnothing).
Defined.

(** ** The detail page: what a change leaves for the next visit *)

Lemma find_alter_first {A} (test : A -> bool) (f : A -> A) (l : list A) (k : nat) (x : A) :
  l !! k = Some x -> test (f x) = true ->
  (forall j y, (j < k)%nat -> l !! j = Some y -> test y = false) ->
  List.find test (alter f k l) = Some (f x).
Proof.
  revert k. induction l as [|a l IH]; intros k Hat Hfx Hbefore; [discriminate|].
  destruct k as [|k]; cbn in Hat |- *.
  - injection Hat as ->. now rewrite Hfx.
  - rewrite (Hbefore 0%nat a ltac:(lia) eq_refl).
    apply IH; [exact Hat | exact Hfx |].
    intros j y Hj Hy. apply (Hbefore (S j) y); [lia | exact Hy].
Qed.

Lemma updateStatus_world
    (w w1 : World) (bookId newStatus : string) (loaded : list Book) (k : nat) :
  url_id w = Some bookId -> bookId <> "" ->
  loadBooks w = (Return loaded, w1) ->
  Detail.findIndex (fun b => Js.loose_eq (id b) bookId) loaded = Z.of_nat k ->
  exists (accepted : bool) (w2 : World),
    saveBooks (alter (Detail.set_status newStatus) k loaded) w1 = (Return accepted, w2) /\
    Detail.updateStatus newStatus w =
    (Return tt,
     with_events w2 [Alert (if accepted then "Status updated to: " +:+ newStatus
                            else "Error updating status. Please try again.")]).
Proof.
  intros Hid Hpresent Hload Hk.
  destruct (saveBooks_effect w1 (alter (Detail.set_status newStatus) k loaded))
    as (accepted & w2 & d & Hsave & _).
  exists accepted, w2. split; [exact Hsave|].
  unfold Detail.updateStatus. rewrite (present_start _ _ _ _ Hid Hpresent).
  rewrite (try_bind_run _ _ _ _ _ _ Hload), Hk.
  replace (Z.of_nat k =? -1) with false by lia. rewrite Nat2Z.id.
  unfold try_catch, bind. rewrite Hsave. now destruct accepted.
Qed.

Lemma deleteBook_world
    (w w1 : World) (bookId : string) (loaded : list Book) (book : Book) :
  url_id w = Some bookId -> bookId <> "" ->
  loadBooks w = (Return loaded, w1) ->
  List.find (fun b => Js.loose_eq (id b) bookId) loaded = Some book ->
  exists (question : string) (accepted : bool) (w2 : World),
    saveBooks (List.filter (fun b => negb (Js.loose_eq (id b) bookId)) loaded)
              (with_events w1 [Confirm question true]) = (Return accepted, w2) /\
    Detail.deleteBook true w =
    (Return tt,
     with_events w2
       (if accepted
        then [Alert (Index.dq +:+ Detail.shown (title book) +:+ Index.dq +:+
                     " has been deleted from your library.");
              Navigate "index.html"]
        else [Alert "Error deleting book. Please try again."])).
Proof.
  intros Hid Hpresent Hload Hfind.
  remember ("Are you sure you want to delete " +:+ Index.dq +:+
            Detail.shown (title book) +:+ Index.dq +:+
            "? This action cannot be undone.") as question eqn:Hquestion.
  destruct (saveBooks_effect (with_events w1 [Confirm question true])
              (List.filter (fun b => negb (Js.loose_eq (id b) bookId)) loaded))
    as (accepted & w2 & d & Hsave & _).
  exists question, accepted, w2. split; [exact Hsave|].
  unfold Detail.deleteBook. rewrite (present_start _ _ _ _ Hid Hpresent).
  rewrite (try_bind_run _ _ _ _ _ _ Hload), Hfind. rewrite <- Hquestion.
  unfold Detail.confirm, try_catch, bind, emit, ret. cbv beta iota.
  fold (with_events w1 [Confirm question true]). rewrite Hsave.
  destruct accepted; unfold with_events; cbn; rewrite <- ?app_assoc; reflexivity.
Qed.

Lemma get_statusSelect (book : Book) (toLocaleDateString : Stamp -> string) (d : Detail.Dom) :
  Detail.get "statusSelect.value"
    (match dateAdded book with
     | Some stamp =>
         Detail.set "dateAdded.textContent" (toLocaleDateString stamp)
                    (Detail.setupStatusDropdown book d)
     | None => Detail.setupStatusDropdown book d
     end) =
  Some (match Detail.filled (status book) with
        | Some s => s
        | None => "want to read"
        end).
Proof.
  unfold Detail.setupStatusDropdown.
  destruct (dateAdded book), (Detail.filled (status book)); reflexivity.
Qed.

(** X15. Once [updateStatus] has told the user that the status was updated, the
    detail page of the same book, loaded over a healthy exchange, shows the
    new status in its dropdown. *)
Theorem updated_status_is_displayed
    (w w2 : World) (bookId newStatus : string)
    (toLocaleDateString : Stamp -> string) (dom : Detail.Dom)
    (Hid : url_id w = Some bookId) (Hpresent : bookId <> "")
    (Hstatus : newStatus <> "")
    (Hrun : Detail.updateStatus newStatus w = (Return tt, w2))
    (Htold : last (trace w2) = Some (Alert ("Status updated to: " +:+ newStatus)))
    (Hhealthy : upcoming_fault w2 = Healthy) :
  exists dom' w3,
    Detail.displayBookDetails toLocaleDateString dom w2 = (Return dom', w3) /\
    Detail.get "statusSelect.value" dom' = Some newStatus.
Proof.
  destruct (loadBooks_returns w) as (loaded & w1 & Hload).
  destruct (loadBooks_effect _ _ _ Hload) as (_ & _ & Hurl1).
  destruct (findIndex_spec (fun b => Js.loose_eq (id b) bookId) loaded)
    as [[Hnone _] | (k & x & Hk & Hx & Htest & Hbefore)].
  { destruct (updateStatus_missing w w1 bookId loaded Hid Hpresent Hload newStatus Hnone)
      as (w2' & Hrun' & Htrace & _).
    rewrite Hrun in Hrun'. injection Hrun' as <-.
    rewrite Htrace in Htold.
    change (trace w ++ [Fetched "GET" None; Alert "Book not found"])%list
      with (trace w ++ [Fetched "GET" None] ++ [Alert "Book not found"])%list in Htold.
    rewrite app_assoc, last_snoc in Htold. discriminate Htold. }
  destruct (updateStatus_world w w1 bookId newStatus loaded k Hid Hpresent Hload Hk)
    as (accepted & w2' & Hsave & Hrun').
  rewrite Hrun in Hrun'. injection Hrun' as Hw2.
  destruct (saveBooks_effect w1 (alter (Detail.set_status newStatus) k loaded))
    as (accepted' & w2'' & d & Hsave' & _ & Hd & Hfile2 & Hurl2).
  rewrite Hsave in Hsave'. inversion Hsave'; subst accepted' w2''. clear Hsave'.
  destruct accepted.
  2:{ rewrite Hw2 in Htold. unfold with_events in Htold. cbn [trace] in Htold.
      rewrite last_snoc in Htold. discriminate Htold. }
  assert (Hfile : file w2 = Some d) by (rewrite Hw2; exact Hfile2).
  assert (Hurl : url_id w2 = Some bookId).
  { rewrite Hw2. cbn. now rewrite Hurl2, Hurl1. }
  destruct (loadBooks_healthy w2 d Hfile Hhealthy) as (w3 & Hload2 & _).
  rewrite Hd in Hload2.
  change (loadBooks w2 = (Return (alter (Detail.set_status newStatus) k loaded), w3))
    in Hload2.
  assert (Hfind : List.find (fun b => Js.loose_eq (id b) bookId)
                    (alter (Detail.set_status newStatus) k loaded) =
                  Some (Detail.set_status newStatus x)).
  { apply find_alter_first; [exact Hx | exact Htest | exact Hbefore]. }
  unfold Detail.displayBookDetails. rewrite (present_start _ _ _ _ Hurl Hpresent).
  rewrite (try_bind_run _ _ _ _ _ _ Hload2), Hfind.
  unfold try_catch, ret. eexists _, _. split; [reflexivity|].
  rewrite get_statusSelect. cbn [status Detail.set_status Detail.filled].
  apply truthy_string_true in Hstatus. now rewrite Hstatus.
Qed.

Lemma updated_status_is_displayed_witness :
  url_id (sample_world [dune; emma] (Some "2")) = Some "2" /\
  "2" <> "" /\
  "read" <> "" /\
  Detail.updateStatus "read" (sample_world [dune; emma] (Some "2")) =
    (Return tt, snd (Detail.updateStatus "read" (sample_world [dune; emma] (Some "2")))) /\
  last (trace (snd (Detail.updateStatus "read" (sample_world [dune; emma] (Some "2"))))) =
    Some (Alert ("Status updated to: " +:+ "read")) /\
  upcoming_fault (snd (Detail.updateStatus "read" (sample_world [dune; emma] (Some "2")))) =
    Healthy /\
  exists dom' w3,
    Detail.displayBookDetails (fun _ => "") []
      (snd (Detail.updateStatus "read" (sample_world [dune; emma] (Some "2")))) =
      (Return dom', w3) /\
    Detail.get "statusSelect.value" dom' = Some "read".
Proof.
  assert (Hpresent : "2" <> "") by discriminate.
  assert (Hstatus : "read" <> "") by discriminate.
  split; [reflexivity|]. split; [exact Hpresent|]. split; [exact Hstatus|].
  split; [reflexivity|]. split; [reflexivity|]. split; [reflexivity|].
  exact (updated_status_is_displayed (sample_world [dune; emma] (Some "2")) _ "2" "read"
           (fun _ => "") [] eq_refl Hpresent Hstatus eq_refl eq_refl eq_refl).
Defined.

(** X16. Once [deleteBook] has moved on to the list view, the deleted
    identifier resolves no more: the collection loaded over a healthy
    exchange holds no book that carries it, and the detail page reports
    "Book not found" and leaves for the list view. *)
Theorem deleted_book_is_gone
    (w w2 : World) (bookId : string)
    (toLocaleDateString : Stamp -> string) (dom : Detail.Dom)
    (Hid : url_id w = Some bookId) (Hpresent : bookId <> "")
    (Hrun : Detail.deleteBook true w = (Return tt, w2))
    (Hdone : last (trace w2) = Some (Navigate "index.html"))
    (Hhealthy : upcoming_fault w2 = Healthy) :
  exists (remainder : list Book) (w3 : World),
    loadBooks w2 = (Return remainder, w3) /\
    (forall b, In b remainder -> ~ has_id bookId b) /\
    Detail.displayBookDetails toLocaleDateString dom w2 =
      (Return dom, with_events w3 [Alert "Book not found"; Navigate "index.html"]).
Proof.
  destruct (loadBooks_returns w) as (loaded & w1 & Hload).
  destruct (loadBooks_effect _ _ _ Hload) as (_ & _ & Hurl1).
  destruct (List.find (fun b => Js.loose_eq (id b) bookId) loaded) as [book|] eqn:Hfind.
  2:{ exfalso. unfold Detail.deleteBook in Hrun.
      rewrite (present_start _ _ _ _ Hid Hpresent) in Hrun.
      rewrite (try_bind_run _ _ _ _ _ _ Hload), Hfind in Hrun.
      injection Hrun as <-. cbn [trace] in Hdone. rewrite last_snoc in Hdone.
      discriminate Hdone. }
  destruct (deleteBook_world w w1 bookId loaded book Hid Hpresent Hload Hfind)
    as (question & accepted & w2' & Hsave & Hrun').
  rewrite Hrun in Hrun'. injection Hrun' as Hw2.
  set (remainder := List.filter (fun b => negb (Js.loose_eq (id b) bookId)) loaded) in *.
  destruct (saveBooks_effect (with_events w1 [Confirm question true]) remainder)
    as (accepted' & w2'' & d & Hsave' & _ & Hd & Hfile2 & Hurl2).
  rewrite Hsave in Hsave'. inversion Hsave'; subst accepted' w2''. clear Hsave'.
  destruct accepted.
  2:{ rewrite Hw2 in Hdone. unfold with_events in Hdone. cbn [trace] in Hdone.
      rewrite last_snoc in Hdone. discriminate Hdone. }
  assert (Hfile : file w2 = Some d) by (rewrite Hw2; exact Hfile2).
  assert (Hurl : url_id w2 = Some bookId).
  { rewrite Hw2. cbn. rewrite Hurl2. cbn. exact (eq_trans Hurl1 Hid). }
  destruct (loadBooks_healthy w2 d Hfile Hhealthy) as (w3 & Hload2 & _).
  rewrite Hd in Hload2. change (loadBooks w2 = (Return remainder, w3)) in Hload2.
  assert (Hgone : forall b, In b remainder -> Js.loose_eq (id b) bookId = false).
  { intros b Hb. apply filter_In in Hb as [_ Hb]. now apply negb_true_iff in Hb. }
  exists remainder, w3. split; [exact Hload2|]. split.
  - intros b Hb Hhas. unfold has_id in Hhas. rewrite (Hgone b Hb) in Hhas. discriminate.
  - unfold Detail.displayBookDetails. rewrite (present_start _ _ _ _ Hurl Hpresent).
    rewrite (try_bind_run _ _ _ _ _ _ Hload2), (find_none_iff _ _ Hgone).
    unfold with_events. cbn. rewrite <- app_assoc. reflexivity.
Qed.

Lemma deleted_book_is_gone_witness :
  url_id (sample_world [dune; emma] (Some "1")) = Some "1" /\
  "1" <> "" /\
  Detail.deleteBook true (sample_world [dune; emma] (Some "1")) =
    (Return tt, snd (Detail.deleteBook true (sample_world [dune; emma] (Some "1")))) /\
  last (trace (snd (Detail.deleteBook true (sample_world [dune; emma] (Some "1"))))) =
    Some (Navigate "index.html") /\
  upcoming_fault (snd (Detail.deleteBook true (sample_world [dune; emma] (Some "1")))) =
    Healthy /\
  exists (remainder : list Book) (w3 : World),
    loadBooks (snd (Detail.deleteBook true (sample_world [dune; emma] (Some "1")))) =
      (Return remainder, w3) /\
    (forall b, In b remainder -> ~ has_id "1" b) /\
    Detail.displayBookDetails (fun _ => "") []
      (snd (Detail.deleteBook true (sample_world [dune; emma] (Some "1")))) =
      (Return [], with_events w3 [Alert "Book not found"; Navigate "index.html"]).
Proof.
  assert (Hpresent : "1" <> "") by discriminate.
  split; [reflexivity|]. split; [exact Hpresent|].
  split; [reflexivity|]. split; [reflexivity|]. split; [reflexivity|].
  exact (deleted_book_is_gone (sample_world [dune; emma] (Some "1")) _ "1"
           (fun _ => "") [] eq_refl Hpresent eq_refl eq_refl eq_refl).
Defined.

(** ** The detail page: what is painted *)

Ltac by_book_shape book :=
  unfold Detail.setupStatusDropdown, Detail.setupOptionalFields, Detail.setupCoverImage,
    Detail.show_rows, Detail.set, Detail.get;
  destruct (Detail.filled (status book));
    (destruct (Detail.filled (description book)) as [?t1|];
     [destruct (Js.truthy_string (Js.trim t1))|]);
    (destruct (Detail.filled (review book)) as [?t2|];
     [destruct (Js.truthy_string (Js.trim t2))|]);
    (destruct (tags book) as [[|? ?]|]);
    (destruct (Detail.filled (coverImage book)) as [?t3|];
     [destruct (Js.truthy_string (Js.trim t3))|]);
    reflexivity.

Lemma get_bookTitle (book : Book) (d : Detail.Dom) :
  Detail.get "bookTitle.textContent"
    (Detail.setupStatusDropdown book
       (Detail.setupOptionalFields book (Detail.setupCoverImage book d))) =
  Detail.get "bookTitle.textContent" d.
Proof. by_book_shape book. Qed.

Lemma get_bookAuthor (book : Book) (d : Detail.Dom) :
  Detail.get "bookAuthor.textContent"
    (Detail.setupStatusDropdown book
       (Detail.setupOptionalFields book (Detail.setupCoverImage book d))) =
  Detail.get "bookAuthor.textContent" d.
Proof. by_book_shape book. Qed.

(** X17. For the book it finds, [displayBookDetails] sends nothing more than
    the load, and paints the title, the author and the status with their
    fall-backs: "Untitled", "Unknown Author" and "want to read" stand in
    for a field that is absent or empty. *)
Theorem detail_view_falls_back_on_defaults
    (w w1 : World) (bookId : string) (loaded : list Book) (book : Book)
    (toLocaleDateString : Stamp -> string) (dom : Detail.Dom)
    (Hid : url_id w = Some bookId) (Hpresent : bookId <> "")
    (Hload : loadBooks w = (Return loaded, w1))
    (Hfind : List.find (fun b => Js.loose_eq (id b) bookId) loaded = Some book) :
  exists dom',
    Detail.displayBookDetails toLocaleDateString dom w = (Return dom', w1) /\
    Detail.get "bookTitle.textContent" dom' =
      Some (match Detail.filled (title book) with Some t => t | None => "Untitled" end) /\
    Detail.get "bookAuthor.textContent" dom' =
      Some ("by " +:+ match Detail.filled (author book) with
                      | Some a => a
                      | None => "Unknown Author"
                      end) /\
    Detail.get "statusSelect.value" dom' =
      Some (match Detail.filled (status book) with
            | Some s => s
            | None => "want to read"
            end).
Proof.
  unfold Detail.displayBookDetails. rewrite (present_start _ _ _ _ Hid Hpresent).
  rewrite (try_bind_run _ _ _ _ _ _ Hload), Hfind.
  unfold try_catch, ret. eexists. split; [reflexivity|].
  split; [|split; [|apply get_statusSelect]].
  - destruct (dateAdded book);
      [change (Detail.get "bookTitle.textContent" (Detail.set ?k ?v ?d))
         with (Detail.get "bookTitle.textContent" d)|];
      now rewrite get_bookTitle.
  - destruct (dateAdded book);
      [change (Detail.get "bookAuthor.textContent" (Detail.set ?k ?v ?d))
         with (Detail.get "bookAuthor.textContent" d)|];
      now rewrite get_bookAuthor.
Qed.

Lemma detail_view_falls_back_on_defaults_witness :
  url_id (sample_world [untitled; emma] (Some "7")) = Some "7" /\
  "7" <> "" /\
  loadBooks (sample_world [untitled; emma] (Some "7")) =
    (Return [untitled; emma], fetched_world [untitled; emma] (Some "7")) /\
  List.find (fun b => Js.loose_eq (id b) "7") [untitled; emma] = Some untitled /\
  exists dom',
    Detail.displayBookDetails (fun _ => "") [] (sample_world [untitled; emma] (Some "7")) =
      (Return dom', fetched_world [untitled; emma] (Some "7")) /\
    Detail.get "bookTitle.textContent" dom' =
      Some (match Detail.filled (title untitled) with Some t => t | None => "Untitled" end) /\
    Detail.get "bookAuthor.textContent" dom' =
      Some ("by " +:+ match Detail.filled (author untitled) with
                      | Some a => a
                      | None => "Unknown Author"
                      end) /\
    Detail.get "statusSelect.value" dom' =
      Some (match Detail.filled (status untitled) with
            | Some s => s
            | None => "want to read"
            end).
Proof.
  assert (Hpresent : "7" <> "") by discriminate.
  split; [reflexivity|]. split; [exact Hpresent|]. split; [reflexivity|].
  split; [reflexivity|].
  exact (detail_view_falls_back_on_defaults
           (sample_world [untitled; emma] (Some "7"))
           (fetched_world [untitled; emma] (Some "7")) "7" [untitled; emma] untitled
           (fun _ => "") [] eq_refl Hpresent eq_refl eq_refl).
Defined.

Lemma has_text_filled (field : option string) :
  has_text field = true ->
  exists s, field = Some s /\ Detail.filled field = Some s /\
            Js.truthy_string (Js.trim s) = true.
Proof.
  destruct field as [s|]; [|discriminate]. cbn. intros H. exists s.
  destruct (Js.truthy_string s) eqn:Hs; [auto|].
  apply truthy_string_false in Hs. subst s. discriminate H.
Qed.

Lemma has_text_empty (field : option string) :
  has_text field = false ->
  match Detail.filled field with
  | Some s => Js.truthy_string (Js.trim s) = false
  | None => True
  end.
Proof.
  destruct field as [s|]; cbn; [|trivial].
  destruct (Js.truthy_string s); [now intros | trivial].
Qed.

(** X18. [setupOptionalFields] shows a section only for content: the
    description and the review rows appear, with the text, exactly when the
    field holds more than white space, the tags rows exactly when there is
    a tag; a section without content is left as the page had it. *)
Theorem optional_sections_follow_the_data (book : Book) (d : Detail.Dom) :
  let d' := Detail.setupOptionalFields book d in
  (if has_text (description book)
   then Detail.get "descriptionRow.style.display" d' = Some "table-row" /\
        Detail.get "descriptionContentRow.style.display" d' = Some "table-row" /\
        Detail.get "bookDescription.textContent" d' = Some (text_of (description book))
   else Detail.get "descriptionRow.style.display" d' =
          Detail.get "descriptionRow.style.display" d /\
        Detail.get "descriptionContentRow.style.display" d' =
          Detail.get "descriptionContentRow.style.display" d /\
        Detail.get "bookDescription.textContent" d' =
          Detail.get "bookDescription.textContent" d) /\
  (if has_text (review book)
   then Detail.get "reviewRow.style.display" d' = Some "table-row" /\
        Detail.get "reviewContentRow.style.display" d' = Some "table-row" /\
        Detail.get "bookReview.textContent" d' = Some (text_of (review book))
   else Detail.get "reviewRow.style.display" d' =
          Detail.get "reviewRow.style.display" d /\
        Detail.get "reviewContentRow.style.display" d' =
          Detail.get "reviewContentRow.style.display" d /\
        Detail.get "bookReview.textContent" d' =
          Detail.get "bookReview.textContent" d) /\
  (match tags book with
   | Some (_ :: _) =>
       Detail.get "tagsRow.style.display" d' = Some "table-row" /\
       Detail.get "tagsContentRow.style.display" d' = Some "table-row"
   | _ =>
       Detail.get "tagsRow.style.display" d' = Detail.get "tagsRow.style.display" d /\
       Detail.get "tagsContentRow.style.display" d' =
         Detail.get "tagsContentRow.style.display" d /\
       Detail.get "bookTags.innerHTML" d' = Detail.get "bookTags.innerHTML" d
   end).
Proof.
  intros d'. subst d'. unfold Detail.setupOptionalFields.
  destruct (has_text (description book)) eqn:Hdesc;
    [apply has_text_filled in Hdesc as (s1 & -> & -> & ->)
    |apply has_text_empty in Hdesc;
     destruct (Detail.filled (description book)) as [s1|]; [rewrite Hdesc|]];
    (destruct (has_text (review book)) eqn:Hrev;
     [apply has_text_filled in Hrev as (s2 & -> & -> & ->)
     |apply has_text_empty in Hrev;
      destruct (Detail.filled (review book)) as [s2|]; [rewrite Hrev|]]);
    destruct (tags book) as [[|? ?]|]; repeat split.
Qed.

(** X19. [setupCoverImage] never leaves the cover area empty. Without a usable
    cover address the image is hidden and the placeholder shown at once.
    With one, the address is given to the image and the choice waits for
    the image to report: loaded, the image shows and the placeholder
    hides; failed, the placeholder shows and the image hides. *)
Theorem cover_falls_back_on_the_placeholder (book : Book) (d : Detail.Dom) :
  let d' := Detail.setupCoverImage book d in
  (if has_text (coverImage book)
   then Detail.get "bookCover.src" d' = Some (text_of (coverImage book)) /\
        Detail.get "bookCover.style.display" d' = Detail.get "bookCover.style.display" d /\
        Detail.get "noCover.style.display" d' = Detail.get "noCover.style.display" d
   else Detail.get "bookCover.src" d' = Detail.get "bookCover.src" d /\
        Detail.get "bookCover.style.display" d' = Some "none" /\
        Detail.get "noCover.style.display" d' = Some "block") /\
  Detail.get "bookCover.style.display" (Detail.coverImg_onload d') = Some "block" /\
  Detail.get "noCover.style.display" (Detail.coverImg_onload d') = Some "none" /\
  Detail.get "bookCover.style.display" (Detail.coverImg_onerror d') = Some "none" /\
  Detail.get "noCover.style.display" (Detail.coverImg_onerror d') = Some "block".
Proof.
  intros d'. subst d'. unfold Detail.setupCoverImage.
  destruct (has_text (coverImage book)) eqn:Hcover;
    [apply has_text_filled in Hcover as (s & -> & -> & ->)
    |apply has_text_empty in Hcover;
     destruct (Detail.filled (coverImage book)) as [s|]; [rewrite Hcover|]];
    repeat split.
Qed.

(** ** The list page: labels and stale grids *)

Lemma length_take_units (n : nat) (s : string) :
  String.length (Js.take n s) = Nat.min n (String.length s).
Proof.
  revert s. induction n as [|n IH]; intros [|c s]; simpl; auto.
Qed.

Lemma length_append (a b : string) :
  String.length (a +:+ b) = (String.length a + String.length b)%nat.
Proof. induction a as [|c a IH]; simpl; auto. Qed.

(** X20. The label under a book is the title itself when it has at most [n]
    units, and otherwise its first [n] units followed by three dots: never
    more than [n + 3] units, and the start of the title is never altered. *)
Theorem shortened_label_is_bounded (n : nat) (t : string) :
  (String.length (Index.shorten n t) <= n + 3)%nat /\
  ((String.length t <= n)%nat -> Index.shorten n t = t) /\
  ((n < String.length t)%nat ->
   Index.shorten n t = Js.take n t +:+ "..." /\
   String.length (Index.shorten n t) = (n + 3)%nat /\
   exists rest, t = Js.take n t +:+ rest).
Proof.
  unfold Index.shorten. destruct (Nat.ltb_spec n (String.length t)) as [Hlong | Hshort].
  - rewrite length_append, length_take_units. cbn [String.length].
    split; [lia|]. split; [lia|]. intros _. split; [reflexivity|]. split; [lia|].
    clear Hlong. revert t. induction n as [|n IH]; intros t.
    + exists t. reflexivity.
    + destruct t as [|c t]; [exists ""; reflexivity|].
      destruct (IH t) as [rest Hrest]. exists rest.
      change (String c t = String c (Js.take n t +:+ rest)). now f_equal.
  - split; [lia|]. split; [reflexivity | lia].
Qed.

Lemma append_assoc (a b c : string) : (a +:+ b) +:+ c = a +:+ (b +:+ c).
Proof.
  induction a as [|x a IH]; [reflexivity|].
  change (String x ((a +:+ b) +:+ c) = String x (a +:+ (b +:+ c))). now f_equal.
Qed.

Lemma ends_with_more (a rest target : string) :
  (exists before, rest = before +:+ target) ->
  exists before, a +:+ rest = before +:+ target.
Proof. intros [before ->]. exists (a +:+ before). now rewrite append_assoc. Qed.

(** X21. The cell of a titled book carries the trimmed title, shortened to
    eight units beside a cover and to six without one, and names title and
    author in its tooltip, "Unknown" standing in for a missing author. *)
Theorem book_cell_labels_the_book (bs : list Index.Obj) (b : Index.Obj) (t : string)
    (Htitle : title (Index.val b) = Some t) (Hfilled : t <> "") :
  let cell := Index.book_cell bs (Some b) in
  Index.tooltip cell =
    Js.trim t +:+ " by " +:+
    match Detail.filled (author (Index.val b)) with
    | Some a => Js.trim a
    | None => "Unknown"
    end /\
  Index.cursor cell = "pointer" /\
  is_error_cell cell = false /\
  exists before,
    Index.innerHTML cell =
      before +:+ Index.shorten (if has_text (coverImage (Index.val b)) then 8 else 6)
                               (Js.trim t) +:+ "</small>".
Proof.
  intros cell. subst cell. unfold Index.book_cell. rewrite Htitle.
  apply truthy_string_true in Hfilled. rewrite Hfilled.
  cbn [Index.tooltip Index.cursor Index.innerHTML].
  split; [|split; [reflexivity|split; [reflexivity|]]].
  - unfold Detail.filled. destruct (author (Index.val b)) as [a|]; [|reflexivity].
    now destruct (Js.truthy_string a).
  - destruct (coverImage (Index.val b)) as [c|] eqn:Hc; cbn [has_text].
    + destruct (Js.truthy_string c) eqn:Htc; cbn [andb].
      * destruct (Js.truthy_string (Js.trim c));
          repeat (first [ now exists "" | apply ends_with_more ]).
      * apply truthy_string_false in Htc. subst c.
        change (Js.truthy_string (Js.trim "")) with false.
        repeat (first [ now exists "" | apply ends_with_more ]).
    + repeat (first [ now exists "" | apply ends_with_more ]).
Qed.

Lemma book_cell_labels_the_book_witness :
  title (Index.val (Index.mkObj 0 dune)) = Some "Dune" /\
  "Dune" <> "" /\
  Index.tooltip (Index.book_cell [] (Some (Index.mkObj 0 dune))) =
    Js.trim "Dune" +:+ " by " +:+
    match Detail.filled (author (Index.val (Index.mkObj 0 dune))) with
    | Some a => Js.trim a
    | None => "Unknown"
    end /\
  Index.cursor (Index.book_cell [] (Some (Index.mkObj 0 dune))) = "pointer" /\
  is_error_cell (Index.book_cell [] (Some (Index.mkObj 0 dune))) = false /\
  exists before,
    Index.innerHTML (Index.book_cell [] (Some (Index.mkObj 0 dune))) =
      before +:+ Index.shorten
                   (if has_text (coverImage (Index.val (Index.mkObj 0 dune))) then 8 else 6)
                   (Js.trim "Dune") +:+ "</small>".
Proof.
  assert (Hfilled : "Dune" <> "") by discriminate.
  split; [reflexivity|]. split; [exact Hfilled|].
  exact (book_cell_labels_the_book [] (Index.mkObj 0 dune) "Dune" eq_refl Hfilled).
Defined.

(** X22. After a refocus that found as many books as before, the grid is the
    old one but its cells act on the new books: a click on the cell drawn
    for position [i] opens whatever book now stands at [i]. *)
Theorem stale_cell_opens_the_current_book
    (p p' : Index.Page) (w w' w'' : World) (i : nat) (b' : Index.Obj)
    (Hfocus : Index.onFocus p w = (Return p', w'))
    (Hsame : length (Index.books p') = length (Index.books p))
    (Hnow : Index.books p' !! i = Some b') :
  Index.table p' = Index.table p /\
  Index.showBookDetail (Z.of_nat i) p' w'' =
    (Return tt,
     if Js.truthy (id (Index.val b'))
     then with_events w'' [Navigate ("detailpage.html?id=" +:+
                                     Js.to_string (id (Index.val b')))]
     else w'').
Proof.
  split.
  - destruct (loadBooks_returns w) as (loaded & w1 & Hload).
    pose proof (loadBooksForIndex_run p w w1 loaded Hload) as Hrun.
    unfold Index.onFocus, bind in Hfocus. rewrite Hrun in Hfocus.
    destruct (Nat.eqb_spec
                (length (Index.books
                           (Index.set_books
                              (List.filter Index.isValid (Index.objects loaded)) p)))
                (length (Index.books p))) as [Heq | Hne]; cbn [negb] in Hfocus.
    + injection Hfocus as <- _. reflexivity.
    + injection Hfocus as <- _. rewrite updateDisplay_books in Hsame. contradiction.
  - unfold Index.showBookDetail, Index.at_index.
    destruct (Z.ltb_spec (Z.of_nat i) 0) as [Hneg | _]; [lia|]. rewrite Nat2Z.id, Hnow.
    destruct (Js.truthy (id (Index.val b'))); reflexivity.
Qed.

Lemma stale_cell_opens_the_current_book_witness :
  Index.onFocus rendered_page (sample_world [emma; dune] None) =
    (Return (Index.set_books [Index.mkObj 0 emma; Index.mkObj 1 dune] rendered_page),
     fetched_world [emma; dune] None) /\
  length (Index.books (Index.set_books [Index.mkObj 0 emma; Index.mkObj 1 dune] rendered_page))
    = length (Index.books rendered_page) /\
  Index.books (Index.set_books [Index.mkObj 0 emma; Index.mkObj 1 dune] rendered_page)
    !! 0%nat = Some (Index.mkObj 0 emma) /\
  Index.table (Index.set_books [Index.mkObj 0 emma; Index.mkObj 1 dune] rendered_page) =
    Index.table rendered_page /\
  Index.showBookDetail (Z.of_nat 0)
    (Index.set_books [Index.mkObj 0 emma; Index.mkObj 1 dune] rendered_page)
    (fetched_world [emma; dune] None) =
    (Return tt,
     if Js.truthy (id (Index.val (Index.mkObj 0 emma)))
     then with_events (fetched_world [emma; dune] None)
            [Navigate ("detailpage.html?id=" +:+
                       Js.to_string (id (Index.val (Index.mkObj 0 emma))))]
     else fetched_world [emma; dune] None).
Proof.
  split; [reflexivity|]. split; [reflexivity|]. split; [reflexivity|].
  exact (stale_cell_opens_the_current_book rendered_page _ (sample_world [emma; dune] None)
           _ (fetched_world [emma; dune] None) 0 (Index.mkObj 0 emma)
           eq_refl eq_refl eq_refl).
Defined.
